(** * ESP32 ADXL313 data logger: the firmware of [main.c], embedded and verified

    The firmware runs three FreeRTOS tasks over global variables:
    [Task1code] samples the accelerometer and appends a CSV record to the SD
    card, [Task2code] refreshes the cached calendar fields and suspends,
    resumes or restarts the device at fixed times of day, [Task3code]
    broadcasts the last sample over ESP-NOW.  [setup] synchronises the clock,
    prepares the log file and launches the tasks.

    Each function of [main.c] is embedded as a computation in a small monad
    that threads the firmware state (the globals, the peripherals, the
    scheduler), records the calls made to the libraries as a trace, and can
    stop (restart, halt, early return).  One run of a task's [for (;;)] body
    is one computation; what the hardware answers in that run (clock query,
    sensor readiness, storage results) is its argument.

    The four [char [20]] globals are bytes in memory, one array behind the
    other in the order of their declarations: a [sprintf] of a text longer
    than its array writes on into the arrays behind it, and a C string is
    read up to the first zero byte, wherever that lies.

    What the model leaves out: the interleaving of two tasks inside one pass
    (a pass is taken as a whole); what FreeRTOS does with the calling task
    when [vTaskSuspend] is given a handle that is still NULL; what lies in
    memory behind the last of the four arrays, which is taken as storage of
    its own. *)

From Stdlib Require Import ZArith String Ascii Lia SpecFloat.
From stdpp Require Import gmap strings list.

Local Open Scope Z_scope.

(** ** C [int] on the ESP32: 32 bits, two's complement *)

Module CInt.

Definition wrap (v : Z) : Z := (v + 2 ^ 31) mod 2 ^ 32 - 2 ^ 31.

Definition in_range (v : Z) : Prop := - 2 ^ 31 <= v < 2 ^ 31.

Definition add (a b : Z) : Z := wrap (a + b).

End CInt.

(** ** [printf] conversions used by the firmware: [%d] *)

Module Fmt.

Definition digit_char (d : Z) : ascii := ascii_of_nat (48 + Z.to_nat d).

(** Decimal digits of [n >= 0], most significant first, in front of [acc];
    [fuel] bounds the number of digits. *)
Fixpoint digits (fuel : nat) (n : Z) (acc : string) : string :=
  match fuel with
  | O => acc
  | S fuel' =>
      let acc' := String (digit_char (n mod 10)) acc in
      if n <? 10 then acc' else digits fuel' (n / 10) acc'
  end.

Definition fmt_u (n : Z) : string := digits (S (Z.to_nat (Z.log2 n))) n "".

(** [%d] *)
Definition fmt_d (v : Z) : string :=
  if v <? 0 then String "-" (fmt_u (- v)) else fmt_u v.

End Fmt.

(** ** Number types of the sensor driver and of the target

    [SparkFunADXL313.h] is not part of the sources: the type of the driver's
    fields [x], [y], [z] and the conversions that [main.c] applies to them
    are parameters of the model.  [float_to_int] is the conversion of a
    [float] to [int] (truncation), which [main.c] itself never applies to
    [data]; it is there to state what a reader of the buffer would get. *)

Class Numbers := {
  accel_t : Type;
  float_t : Type;
  accel_to_float : accel_t -> float_t;
  accel_to_int : accel_t -> Z;
  int_to_float : Z -> float_t;
  float_to_int : float_t -> Z;
  (* the value of [int(myAdxl.x)] is an [int] *)
  accel_to_int_range : forall a : accel_t, CInt.in_range (accel_to_int a)
}.

(** The two conversions of a driver value agree: converting it to [float]
    and truncating gives its conversion to [int]. *)
Definition conversions_agree `{Numbers} : Prop :=
  forall a : accel_t, float_to_int (accel_to_float a) = accel_to_int a.

(** The numbers of the target as the model is run on it: the readings of the
    ADXL313 are 16-bit integers, [float] is IEEE 754 binary32 (24 bits of
    precision), a 16-bit integer converts to it exactly, and a [float]
    converts to [int] by dropping its fraction. *)

Module Esp32.

Definition is_int16 (v : Z) : bool := (-32768 <=? v) && (v <=? 32767).

Definition int16 : Type := { v : Z | is_int16 v = true }.

Definition i16 (v : Z) (Hv : is_int16 v = true) : int16 := exist _ v Hv.

Definition float32_of_Z (v : Z) : spec_float := binary_normalize 24 128 v 0 false.

Definition float32_to_Z (f : spec_float) : Z :=
  match f with
  | S754_finite sign m e =>
      let magnitude := if 0 <=? e then Z.pos m * 2 ^ e else Z.pos m / 2 ^ (- e) in
      if sign then - magnitude else magnitude
  | _ => 0
  end.

Lemma int16_in_range (a : int16) : CInt.in_range (proj1_sig a).
Proof.
  destruct a as [v Hv]. cbn [proj1_sig].
  unfold is_int16 in Hv. apply andb_true_iff in Hv as [Hlo Hhi].
  apply Z.leb_le in Hlo, Hhi. unfold CInt.in_range. lia.
Qed.

Definition numbers : Numbers :=
  {| accel_t := int16;
     float_t := spec_float;
     accel_to_float := fun a => float32_of_Z (proj1_sig a);
     accel_to_int := fun a => proj1_sig a;
     int_to_float := float32_of_Z;
     float_to_int := float32_to_Z;
     accel_to_int_range := int16_in_range |}.

(** [P] on [n] consecutive integers from [lo] on. *)
Fixpoint all_from (n : nat) (lo : Z) (P : Z -> bool) : bool :=
  match n with
  | O => true
  | S n' => P lo && all_from n' (lo + 1) P
  end.

End Esp32.

(** ** Data *)

(** [struct tm], the fields that [printLocalTime] reads. *)
Record tm := mk_tm {
  tm_sec : Z; tm_min : Z; tm_hour : Z; tm_mday : Z; tm_mon : Z; tm_year : Z
}.

Inductive task_id := Task1 | Task2 | Task3.

Inductive lifecycle := NotCreated | Running | Suspended.

Inductive power_mode := Standby | Measuring.

Inductive radio_mode := WIFI_OFF | WIFI_STA.

(** Why a computation does not reach its end: [ESP.restart()]; a halt
    ([sd.errorHalt], [sd.initErrorHalt], [while (1);]); [return] from [setup];
    still inside the clock retry loop when the fuel ran out. *)
Inductive stop := Restart | Halt | Return | Spin.

(** The cached calendar fields [int mint, sect, hourt, dayt, montht, yeart]. *)
Record calendar := mk_calendar {
  hourt : Z; mint : Z; sect : Z; dayt : Z; montht : Z; yeart : Z
}.

(** *** The text arrays in memory *)

Definition NUL : ascii := Ascii.zero.

(** Memory from some address on, byte by byte; behind the last byte listed
    it holds zeros. *)
Definition memory : Type := list ascii.

(** The C string at the head of [m]: the bytes before the first zero. *)
Fixpoint c_string (m : memory) : string :=
  match m with
  | [] => EmptyString
  | c :: rest => if Ascii.eqb c NUL then EmptyString else String c (c_string rest)
  end.

Definition read_at (off : nat) (m : memory) : string := c_string (drop off m).

(** [text] and its terminating zero written from the head of [m] on, over
    as many bytes as they take. *)
Fixpoint write_string (text : string) (m : memory) : memory :=
  match text with
  | EmptyString => NUL :: List.tl m
  | String c rest => c :: write_string rest (List.tl m)
  end.

Fixpoint write_at (off : nat) (text : string) (m : memory) : memory :=
  match off with
  | O => write_string text m
  | S off' => List.hd NUL m :: write_at off' text (List.tl m)
  end.

(** A text without its first [n] characters. *)
Fixpoint behind (n : nat) (text : string) : string :=
  match n, text with
  | S n', String _ rest => behind n' rest
  | _, _ => text
  end.

(** No zero byte inside the text. *)
Fixpoint no_nul (text : string) : bool :=
  match text with
  | EmptyString => true
  | String c rest => negb (Ascii.eqb c NUL) && no_nul rest
  end.

(** [char gpsDate[20]; char header[20]; char Date[20]; char cap[20];], lines
    49-52: the memory from the first byte of [gpsDate] on.  The arrays follow
    one another in the order of their declarations. *)
Definition buffers : Type := memory.

Definition buffer_size : nat := 20.

Definition at_gpsDate : nat := 0.

Definition at_header : nat := buffer_size.

Definition at_Date : nat := 2 * buffer_size.

Definition at_cap : nat := 3 * buffer_size.

(** The C string found at each array. *)
Definition gpsDate (b : buffers) : string := read_at at_gpsDate b.

Definition header (b : buffers) : string := read_at at_header b.

Definition Date (b : buffers) : string := read_at at_Date b.

Definition cap (b : buffers) : string := read_at at_cap b.

(** The arrays at boot: zeros. *)
Definition no_text : buffers := replicate (4 * buffer_size) NUL.

Arguments read_at : simpl never.
Arguments write_at : simpl never.
Arguments gpsDate : simpl never.
Arguments header : simpl never.
Arguments Date : simpl never.
Arguments cap : simpl never.

(** Room in a [char [20]] array: a text and its terminating zero. *)
Definition fits (text : string) : bool := (String.length text <? buffer_size)%nat.

(** The three tasks as the scheduler sees them. *)
Record scheduler := mk_scheduler {
  task1 : lifecycle; task2 : lifecycle; task3 : lifecycle
}.

Section Model.

Context `{Numbers}.

(** [struct_message] *)
Record struct_message := mk_message {
  id : Z; x : float_t; y : float_t; z : float_t
}.

(** [float data[3]] *)
Record vec3 := mk_vec3 { data0 : float_t; data1 : float_t; data2 : float_t }.

(** [ADXL313 myAdxl]: the last reading and the power mode of the part. *)
Record adxl313 := mk_adxl {
  adxl_x : accel_t; adxl_y : accel_t; adxl_z : accel_t; mode : power_mode
}.

Record state := mk_state {
  cal : calendar;
  bufs : buffers;
  data : vec3;
  myData : struct_message;
  myAdxl : adxl313;
  tasks : scheduler;
  sd : gmap string string;        (* the files of the card, by name *)
  wifi : radio_mode;
  sent : list struct_message      (* packets given to esp_now_send, oldest first *)
}.

(** Calls to the libraries, in the order they are made. *)
Inductive event :=
| EGetLocalTime (r : option tm)
| ETaskSuspend (h : task_id)
| ETaskResume (h : task_id)
| ETaskCreate (h : task_id)
| EStandby
| EMeasureModeOn
| ESerial (msg : string)
| ERestart
| EDelayUntil (ticks : Z)
| EDelay (ms : Z)
| EDataReady (b : bool)
| EReadAccel (ax ay az : accel_t)
| EOpen (name : string) (ok : bool)
| EWrite (name : string) (text : string) (ok : bool)
| EClose (name : string)
| EExists (name : string) (b : bool)
| EErrorHalt (msg : string)
| EWifiMode (m : radio_mode)
| ESend (p : struct_message)
| ECall (name : string) (ok : bool).

Inductive result (A : Type) :=
| Done (a : A) (s : state) (tr : list event)
| Stopped (why : stop) (s : state) (tr : list event).

Arguments Done {A} a s tr.
Arguments Stopped {A} why s tr.

Definition M (A : Type) : Type := state -> result A.

#[global] Instance M_ret : MRet M := fun A a s => Done a s [].

(** The calls made so far, in front of the calls of what follows. *)
Definition prepend {A} (tr1 : list event) (r : result A) : result A :=
  match r with
  | Done a s tr2 => Done a s (tr1 ++ tr2)
  | Stopped why s tr2 => Stopped why s (tr1 ++ tr2)
  end.

#[global] Instance M_bind : MBind M := fun A B f m s =>
  match m s with
  | Done a s1 tr1 => prepend tr1 (f a s1)
  | Stopped why s1 tr1 => Stopped why s1 tr1
  end.

Definition gets {A} (f : state -> A) : M A := fun s => Done (f s) s [].

Definition modify (f : state -> state) : M unit := fun s => Done tt (f s) [].

Definition emit (e : event) : M unit := fun s => Done tt s [e].

Definition stop_with (why : stop) : M unit := fun s => Stopped why s [].

(** [if (cond) { body }] *)
Definition when_ (cond : state -> bool) (body : M unit) : M unit :=
  fun s => if cond s then body s else Done tt s [].

Definition final_state {A} (r : result A) : state :=
  match r with Done _ s _ => s | Stopped _ s _ => s end.

Definition stopped_by {A} (r : result A) : option stop :=
  match r with Done _ _ _ => None | Stopped why _ _ => Some why end.

Definition trace_of {A} (r : result A) : list event :=
  match r with Done _ _ tr => tr | Stopped _ _ tr => tr end.

(** *** Field updates *)

Definition upd_cal (f : calendar -> calendar) (s : state) : state :=
  mk_state (f (cal s)) (bufs s) (data s) (myData s) (myAdxl s) (tasks s) (sd s) (wifi s) (sent s).

Definition upd_bufs (f : buffers -> buffers) (s : state) : state :=
  mk_state (cal s) (f (bufs s)) (data s) (myData s) (myAdxl s) (tasks s) (sd s) (wifi s) (sent s).

Definition upd_data (f : vec3 -> vec3) (s : state) : state :=
  mk_state (cal s) (bufs s) (f (data s)) (myData s) (myAdxl s) (tasks s) (sd s) (wifi s) (sent s).

Definition upd_myData (f : struct_message -> struct_message) (s : state) : state :=
  mk_state (cal s) (bufs s) (data s) (f (myData s)) (myAdxl s) (tasks s) (sd s) (wifi s) (sent s).

Definition upd_myAdxl (f : adxl313 -> adxl313) (s : state) : state :=
  mk_state (cal s) (bufs s) (data s) (myData s) (f (myAdxl s)) (tasks s) (sd s) (wifi s) (sent s).

Definition upd_tasks (f : scheduler -> scheduler) (s : state) : state :=
  mk_state (cal s) (bufs s) (data s) (myData s) (myAdxl s) (f (tasks s)) (sd s) (wifi s) (sent s).

Definition upd_sd (f : gmap string string -> gmap string string) (s : state) : state :=
  mk_state (cal s) (bufs s) (data s) (myData s) (myAdxl s) (tasks s) (f (sd s)) (wifi s) (sent s).

Definition set_wifi (m : radio_mode) (s : state) : state :=
  mk_state (cal s) (bufs s) (data s) (myData s) (myAdxl s) (tasks s) (sd s) m (sent s).

Definition push_sent (p : struct_message) (s : state) : state :=
  mk_state (cal s) (bufs s) (data s) (myData s) (myAdxl s) (tasks s) (sd s) (wifi s) (sent s ++ [p]).

Definition set_hourt (v : Z) (c : calendar) : calendar :=
  mk_calendar v (mint c) (sect c) (dayt c) (montht c) (yeart c).

Definition set_mint (v : Z) (c : calendar) : calendar :=
  mk_calendar (hourt c) v (sect c) (dayt c) (montht c) (yeart c).

Definition set_sect (v : Z) (c : calendar) : calendar :=
  mk_calendar (hourt c) (mint c) v (dayt c) (montht c) (yeart c).

Definition set_dayt (v : Z) (c : calendar) : calendar :=
  mk_calendar (hourt c) (mint c) (sect c) v (montht c) (yeart c).

Definition set_montht (v : Z) (c : calendar) : calendar :=
  mk_calendar (hourt c) (mint c) (sect c) (dayt c) v (yeart c).

Definition set_yeart (v : Z) (c : calendar) : calendar :=
  mk_calendar (hourt c) (mint c) (sect c) (dayt c) (montht c) v.

(** [sprintf] into one of the text arrays: the text and its zero go to the
    array's first byte and the bytes behind it, past the array's end when
    they are more than [buffer_size]. *)
Definition set_gpsDate (v : string) (b : buffers) : buffers := write_at at_gpsDate v b.

Definition set_header (v : string) (b : buffers) : buffers := write_at at_header v b.

Definition set_Date (v : string) (b : buffers) : buffers := write_at at_Date v b.

Definition set_cap (v : string) (b : buffers) : buffers := write_at at_cap v b.

Arguments set_gpsDate : simpl never.
Arguments set_header : simpl never.
Arguments set_Date : simpl never.
Arguments set_cap : simpl never.

Definition set_data0 (v : float_t) (d : vec3) : vec3 := mk_vec3 v (data1 d) (data2 d).

Definition set_data1 (v : float_t) (d : vec3) : vec3 := mk_vec3 (data0 d) v (data2 d).

Definition set_data2 (v : float_t) (d : vec3) : vec3 := mk_vec3 (data0 d) (data1 d) v.

Definition set_id (v : Z) (m : struct_message) : struct_message := mk_message v (x m) (y m) (z m).

Definition set_x (v : float_t) (m : struct_message) : struct_message := mk_message (id m) v (y m) (z m).

Definition set_y (v : float_t) (m : struct_message) : struct_message := mk_message (id m) (x m) v (z m).

Definition set_z (v : float_t) (m : struct_message) : struct_message := mk_message (id m) (x m) (y m) v.

Definition set_reading (ax ay az : accel_t) (a : adxl313) : adxl313 := mk_adxl ax ay az (mode a).

Definition set_mode (m : power_mode) (a : adxl313) : adxl313 :=
  mk_adxl (adxl_x a) (adxl_y a) (adxl_z a) m.

Definition task_of (h : task_id) (t : scheduler) : lifecycle :=
  match h with Task1 => task1 t | Task2 => task2 t | Task3 => task3 t end.

Definition set_task (h : task_id) (v : lifecycle) (t : scheduler) : scheduler :=
  match h with
  | Task1 => mk_scheduler v (task2 t) (task3 t)
  | Task2 => mk_scheduler (task1 t) v (task3 t)
  | Task3 => mk_scheduler (task1 t) (task2 t) v
  end.

(** *** [sprintf]

    The directives the firmware uses are [%d] and [%s]; each takes the next
    argument, every other character is copied. *)

Inductive arg := AInt (v : Z) | AStr (t : string).

Definition render (a : arg) : string :=
  match a with AInt v => Fmt.fmt_d v | AStr t => t end.

Fixpoint sprintf (fmt : string) (args : list arg) : string :=
  match fmt with
  | EmptyString => EmptyString
  | String c rest =>
      if Ascii.eqb c "%" then
        match rest, args with
        | String _ rest', a :: args' => render a +:+ sprintf rest' args'
        | _, _ => EmptyString
        end
      else String c (sprintf rest args)
  end.

Definition LF : string := String (ascii_of_nat 10) EmptyString.

Definition CRLF : string := String (ascii_of_nat 13) LF.

(** *** The libraries, as far as the firmware observes them *)

(** [getLocalTime(&timeinfo)]: [q] is what the clock answers, [None] when the
    call returns false. *)
Definition getLocalTime (q : option tm) : M (option tm) :=
  emit (EGetLocalTime q);; mret q.

(** [vTaskSuspend] and [vTaskResume] on the handle of a created task.  A
    handle is NULL until [xTaskCreatePinnedToCore] has filled it; a call on a
    NULL handle does nothing to the task the handle was meant for.  (FreeRTOS
    takes a NULL handle in [vTaskSuspend] for the calling task; that effect
    is left out, the scheduler is left as it is.) *)
Definition vTaskSuspend (h : task_id) : M unit :=
  emit (ETaskSuspend h);;
  modify (upd_tasks (fun t =>
    match task_of h t with NotCreated => t | _ => set_task h Suspended t end)).

Definition vTaskResume (h : task_id) : M unit :=
  emit (ETaskResume h);;
  modify (upd_tasks (fun t =>
    match task_of h t with NotCreated => t | _ => set_task h Running t end)).

Definition xTaskCreatePinnedToCore (h : task_id) : M unit :=
  emit (ETaskCreate h);; modify (upd_tasks (set_task h Running)).

Definition vTaskDelayUntil (ticks : Z) : M unit := emit (EDelayUntil ticks).

Definition delay (ms : Z) : M unit := emit (EDelay ms).

Definition ESP_restart : M unit := emit ERestart;; stop_with Restart.

Definition Serial_print (msg : string) : M unit := emit (ESerial msg).

Definition Serial_println (msg : string) : M unit := emit (ESerial (msg +:+ CRLF)).

Definition adxl_standby : M unit :=
  emit EStandby;; modify (upd_myAdxl (set_mode Standby)).

Definition adxl_measureModeOn : M unit :=
  emit EMeasureModeOn;; modify (upd_myAdxl (set_mode Measuring)).

Definition adxl_dataReady (b : bool) : M bool := emit (EDataReady b);; mret b.

Definition adxl_readAccel (ax ay az : accel_t) : M unit :=
  emit (EReadAccel ax ay az);; modify (upd_myAdxl (set_reading ax ay az)).

(** [#define error(msg) sd.errorHalt(F(msg))]: prints and never returns. *)
Definition error (msg : string) : M unit := emit (EErrorHalt msg);; stop_with Halt.

(** [ofstream sdout(name, ios::out | ios::app)]: opens for appending and
    creates the file when it is missing; [None] is a stream in the failed
    state. *)
Definition ofstream_app (name : string) (ok : bool) : M (option string) :=
  emit (EOpen name ok);;
  if ok then
    modify (upd_sd (fun files =>
      match files !! name with Some _ => files | None => <[name := EmptyString]> files end));;
    mret (Some name)
  else mret None.

(** [sdout << text]: a failed write leaves the file as it was and is
    remembered by the stream only. *)
Definition ofstream_put (sdout : option string) (text : string) (ok : bool) : M unit :=
  match sdout with
  | Some name =>
      emit (EWrite name text ok);;
      if ok then
        modify (upd_sd (fun files => <[name := default EmptyString (files !! name) +:+ text]> files))
      else mret tt
  | None => mret tt
  end.

Definition ofstream_close (sdout : option string) : M unit :=
  match sdout with Some name => emit (EClose name) | None => mret tt end.

Definition sd_exists (name : string) : M bool :=
  b ← gets (fun s => bool_decide (is_Some (sd s !! name)));
  emit (EExists name b);; mret b.

(** [file.open(name, O_WRONLY | O_CREAT | O_EXCL)] *)
Definition file_open_excl (name : string) (ok : bool) : M bool :=
  present ← gets (fun s => bool_decide (is_Some (sd s !! name)));
  let opened := ok && negb present in
  emit (EOpen name opened);;
  (if opened then modify (upd_sd (fun files => <[name := EmptyString]> files)) else mret tt);;
  mret opened.

(** [file.print(text)], [file.println()] and [file.close()] on the [SdFile]
    opened on [name]; the result of a write is not looked at. *)
Definition file_print (name text : string) (ok : bool) : M unit :=
  ofstream_put (Some name) text ok.

Definition file_println (name : string) (ok : bool) : M unit :=
  ofstream_put (Some name) CRLF ok.

Definition file_close (name : string) : M unit := ofstream_close (Some name).

Definition WiFi_mode (m : radio_mode) : M unit := emit (EWifiMode m);; modify (set_wifi m).

(** [esp_now_send(broadcastAddress, (uint8_t* )&myData, sizeof(myData))]; the
    result is not looked at. *)
Definition esp_now_send : M unit :=
  p ← gets myData; emit (ESend p);; modify (push_sent p).

(** A library call whose only effect here is its success or failure. *)
Definition call (name : string) (ok : bool) : M bool := emit (ECall name ok);; mret ok.

(** *** [main.c]

    The blocks that [main.c] sets apart with a comment are definitions of
    their own here, under the comment's name. *)

(** [printLocalTime], lines 86-96. *)
Definition printLocalTime (q : option tm) : M unit :=
  r ← getLocalTime q;
  match r with
  | None => mret tt
  | Some timeinfo =>
      modify (upd_cal (set_hourt (tm_hour timeinfo)));;
      modify (upd_cal (set_mint (tm_min timeinfo)));;
      modify (upd_cal (set_sect (tm_sec timeinfo)));;
      modify (upd_cal (set_dayt (tm_mday timeinfo)));;
      modify (upd_cal (set_montht (CInt.add (tm_mon timeinfo) 1)));;
      modify (upd_cal (set_yeart (CInt.add (tm_year timeinfo) 1900)))
  end.

(** What the hardware answers during one pass of [Task1code]'s loop: is data
    ready, the reading that [readAccel] would fetch, whether the stream opens
    and whether the write goes through. *)
Record sample_in := mk_sample_in {
  ready : bool; rx : accel_t; ry : accel_t; rz : accel_t; open_ok : bool; write_ok : bool
}.

(** One pass of the loop of [Task1code], lines 101-120. *)
Definition Task1code (env : sample_in) : M unit :=
  r ← adxl_dataReady (ready env);
  (if (r : bool) then
     adxl_readAccel (rx env) (ry env) (rz env);;
     modify (fun s => upd_data (set_data0 (accel_to_float (adxl_x (myAdxl s)))) s);;
     modify (fun s => upd_data (set_data1 (accel_to_float (adxl_y (myAdxl s)))) s);;
     modify (fun s => upd_data (set_data2 (accel_to_float (adxl_z (myAdxl s)))) s);;
     modify (fun s => upd_bufs (set_Date (sprintf "%d/%d/%d %d:%d:%d"
       [AInt (yeart (cal s)); AInt (montht (cal s)); AInt (dayt (cal s));
        AInt (hourt (cal s)); AInt (mint (cal s)); AInt (sect (cal s))])) s);;
     modify (fun s => upd_bufs (set_gpsDate (sprintf ("%s,%d,%d,%d," +:+ LF)
       [AStr (Date (bufs s)); AInt (accel_to_int (adxl_x (myAdxl s)));
        AInt (accel_to_int (adxl_y (myAdxl s))); AInt (accel_to_int (adxl_z (myAdxl s)))])) s);;
     name ← gets (fun s => cap (bufs s));
     sdout ← ofstream_app name (open_ok env);
     (if (sdout : option string) is None then error "open failed" else mret tt);;
     text ← gets (fun s => gpsDate (bufs s));
     ofstream_put sdout text (write_ok env);;
     ofstream_close sdout
   else mret tt);;
  vTaskDelayUntil 1.

(** [// Scheduled suspend], lines 132-137. *)
Definition scheduled_suspend : M unit :=
  when_ (fun s => (hourt (cal s) =? 21) && (mint (cal s) =? 12) && (sect (cal s) =? 10))
    (vTaskSuspend Task1;;
     vTaskSuspend Task3;;
     adxl_standby;;
     Serial_println "Tasks suspended").

(** [// Scheduled resume], lines 140-145. *)
Definition scheduled_resume : M unit :=
  when_ (fun s => (hourt (cal s) =? 6) && (mint (cal s) =? 12) && (sect (cal s) =? 10))
    (vTaskResume Task1;;
     vTaskResume Task3;;
     adxl_measureModeOn;;
     Serial_println "Tasks resumed").

(** [// Scheduled restart], lines 148-151. *)
Definition scheduled_restart : M unit :=
  when_ (fun s => ((hourt (cal s) =? 6) && (mint (cal s) =? 16) && (sect (cal s) =? 10))
                  || ((hourt (cal s) =? 6) && (mint (cal s) =? 18) && (sect (cal s) =? 10)))
    ESP_restart.

(** One pass of the loop of [Task2code], lines 126-153; [q] is the answer to
    its clock query. *)
Definition Task2code (q : option tm) : M unit :=
  printLocalTime q;;
  scheduled_suspend;;
  scheduled_resume;;
  scheduled_restart;;
  vTaskDelayUntil 1.

(** One pass of the loop of [Task3code], lines 159-169. *)
Definition Task3code : M unit :=
  WiFi_mode WIFI_STA;;
  modify (upd_myData (set_id 11));;
  modify (fun s => upd_myData (set_x (data0 (data s))) s);;
  modify (fun s => upd_myData (set_y (data1 (data s))) s);;
  modify (fun s => upd_myData (set_z (data2 (data s))) s);;
  esp_now_send;;
  delay 2000;;
  WiFi_mode WIFI_OFF.

(** What the hardware answers during [setup]: how often the Wi-Fi status is
    polled before the connection stands, the answer to each clock query, and
    which of the initialisations succeed. *)
Record boot_in := mk_boot_in {
  wifi_polls : nat;
  clock : nat -> option tm;
  esp_now_ok : bool;
  peer_ok : bool;
  adxl_ok : bool;
  sd_ok : bool;
  file_ok : bool;
  header_ok : bool
}.

(** [while (WiFi.status() != WL_CONNECTED) { delay(500); Serial.print("."); }] *)
Fixpoint wifi_wait (polls : nat) : M unit :=
  match polls with
  | O => mret tt
  | S polls' => delay 500;; Serial_print ".";; wifi_wait polls'
  end.

(** [// Connect Wi-Fi for time sync], lines 175-185. *)
Definition connect_wifi (env : boot_in) : M unit :=
  call "Wire.begin" true;;
  call "Serial.begin" true;;
  call "WiFi.begin" true;;
  Serial_print "Connecting to Wi-Fi";;
  wifi_wait (wifi_polls env);;
  call "configTime" true;;
  mret tt.

(** [// Ensure valid time], lines 188-190:
    [retry_time: printLocalTime(); if (yeart == 0) goto retry_time;].
    [k] numbers the clock queries of this boot; the loop is cut with [Spin]
    after [fuel] queries. *)
Fixpoint retry_time (fuel : nat) (clk : nat -> option tm) (k : nat) : M unit :=
  match fuel with
  | O => stop_with Spin
  | S fuel' =>
      printLocalTime (clk k);;
      y ← gets (fun s => yeart (cal s));
      if y =? 0 then retry_time fuel' clk (S k) else mret tt
  end.

(** Lines 192-194: the name of the log file, and the radio off. *)
Definition name_log_file : M unit :=
  modify (fun s => upd_bufs (set_cap (sprintf "/test%d%d%d.csv"
    [AInt (yeart (cal s)); AInt (montht (cal s)); AInt (dayt (cal s))])) s);;
  call "WiFi.disconnect" true;;
  WiFi_mode WIFI_OFF.

(** [// Init ESP-NOW], lines 197-209. *)
Definition init_esp_now (env : boot_in) : M unit :=
  WiFi_mode WIFI_STA;;
  ok ← call "esp_now_init" (esp_now_ok env);
  (if negb ok then Serial_println "Error initializing ESP-NOW";; stop_with Return else mret tt);;
  call "esp_now_register_send_cb" true;;
  ok ← call "esp_now_add_peer" (peer_ok env);
  (if negb ok then Serial_println "Failed to add peer";; stop_with Return else mret tt).

(** [// Init ADXL313], lines 212-217. *)
Definition init_adxl313 (env : boot_in) : M unit :=
  ok ← call "myAdxl.begin" (adxl_ok env);
  (if negb ok then stop_with Halt else mret tt);;
  adxl_standby;;
  call "myAdxl.setRange" true;;
  call "myAdxl.setBandwidth" true;;
  call "myAdxl.setFullResBit" true;;
  adxl_measureModeOn.

(** [// Init SD], lines 220-227. *)
Definition init_sd (env : boot_in) : M unit :=
  ok ← call "sd.begin" (sd_ok env);
  (if negb ok then emit (EErrorHalt "sd.initErrorHalt");; stop_with Halt else mret tt);;
  name ← gets (fun s => cap (bufs s));
  present ← sd_exists name;
  if negb present then
    opened ← file_open_excl name (file_ok env);
    (if negb opened then error "!file.open" else mret tt);;
    modify (upd_bufs (set_header
      (sprintf "%s,%s,%s,%s," [AStr "Date"; AStr "X"; AStr "Y"; AStr "Z"])));;
    text ← gets (fun s => header (bufs s));
    file_print name text (header_ok env);;
    file_println name (header_ok env);;
    file_close name
  else mret tt.

(** [// Test send], lines 230-232. *)
Definition test_send : M unit :=
  modify (upd_myData (set_id 11));;
  modify (upd_myData (set_x (int_to_float 5)));;
  modify (upd_myData (set_y (int_to_float 5)));;
  modify (upd_myData (set_z (int_to_float 5)));;
  esp_now_send;;
  WiFi_mode WIFI_OFF.

(** Lines 235-236: the tasks that exist when [Task2code] makes its first
    pass.  Task2 is created with priority 6 on core 1, the core of [setup],
    which runs with priority 1: the new task runs at once, before line 237
    has created Task3. *)
Definition launch_window : M unit :=
  xTaskCreatePinnedToCore Task1;;
  xTaskCreatePinnedToCore Task2.

(** [// Launch tasks], lines 235-237. *)
Definition launch_tasks : M unit :=
  xTaskCreatePinnedToCore Task1;;
  xTaskCreatePinnedToCore Task2;;
  xTaskCreatePinnedToCore Task3.

(** [setup] from the naming of the log file on, lines 192-237. *)
Definition setup_run (env : boot_in) : M unit :=
  name_log_file;;
  init_esp_now env;;
  init_adxl313 env;;
  init_sd env;;
  test_send;;
  launch_tasks.

(** [setup], lines 174-238. *)
Definition setup (fuel : nat) (env : boot_in) : M unit :=
  connect_wifi env;;
  retry_time fuel (clock env) 0;;
  setup_run env.

(** The state a boot starts from: the globals are zero, no task exists; the
    sensor, the card and the packets already on the air are what they are. *)
Definition power_on (chip : adxl313) (card : gmap string string)
    (air : list struct_message) : state :=
  mk_state (mk_calendar 0 0 0 0 0 0)
           no_text
           (mk_vec3 (int_to_float 0) (int_to_float 0) (int_to_float 0))
           (mk_message 0 (int_to_float 0) (int_to_float 0) (int_to_float 0))
           chip
           (mk_scheduler NotCreated NotCreated NotCreated)
           card WIFI_OFF air.

(** [ESP.restart()] leads to a new boot. *)
Definition reboot (s : state) : state := power_on (myAdxl s) (sd s) (sent s).

(** The device over time: a boot, or one pass of a task that runs.  A pass
    is taken as a whole; the state it leaves is the state it stopped in when
    it did not reach its end. *)
Inductive move : state -> state -> Prop :=
| move_boot fuel env s :
    move s (final_state (setup fuel env (reboot s)))
| move_sample env s :
    task1 (tasks s) = Running -> move s (final_state (Task1code env s))
| move_control q s :
    task2 (tasks s) = Running -> move s (final_state (Task2code q s))
| move_broadcast s :
    task3 (tasks s) = Running -> move s (final_state (Task3code s)).

Inductive reachable : state -> Prop :=
| reach_power_on chip card : reachable (power_on chip card [])
| reach_move s s' : reachable s -> move s s' -> reachable s'.

End Model.

Arguments Done {_ A} a s tr.
Arguments Stopped {_ A} why s tr.

(** ** Notions used in the statements *)

(** The times of day compared in [Task2code], as (hour, minute, second). *)
Definition suspend_at : Z * Z * Z := (21, 12, 10).

Definition resume_at : Z * Z * Z := (6, 12, 10).

Definition restart_at : list (Z * Z * Z) := [(6, 16, 10); (6, 18, 10)].

Definition triple (c : calendar) : Z * Z * Z := (hourt c, mint c, sect c).

(** The calendar fields that [printLocalTime] stores for an answer of the clock. *)
Definition calendar_of (t : tm) : calendar :=
  mk_calendar (tm_hour t) (tm_min t) (tm_sec t) (tm_mday t)
              (CInt.add (tm_mon t) 1) (CInt.add (tm_year t) 1900).

(** The texts of the log: the date as line 111 formats it, and a record as
    line 112 formats it, [<year>/<month>/<day> <hour>:<minute>:<second>],
    then the three axis values, each after a comma, a last comma and a
    newline. *)
Definition date_text (c : calendar) : string :=
  Fmt.fmt_d (yeart c) +:+ "/" +:+ Fmt.fmt_d (montht c) +:+ "/" +:+ Fmt.fmt_d (dayt c) +:+ " "
  +:+ Fmt.fmt_d (hourt c) +:+ ":" +:+ Fmt.fmt_d (mint c) +:+ ":" +:+ Fmt.fmt_d (sect c).

Definition log_line (c : calendar) (xi yi zi : Z) : string :=
  date_text c +:+ "," +:+ Fmt.fmt_d xi +:+ "," +:+ Fmt.fmt_d yi +:+ ","
  +:+ Fmt.fmt_d zi +:+ "," +:+ LF.

(** The card after a stream was opened on [name] for appending, and after
    [text] was appended to [name]. *)
Definition opened (name : string) (files : gmap string string) : gmap string string :=
  match files !! name with Some _ => files | None => <[name := EmptyString]> files end.

Definition appended (name text : string) (files : gmap string string) : gmap string string :=
  <[name := default EmptyString (files !! name) +:+ text]> files.

Definition content (name : string) (files : gmap string string) : string :=
  default EmptyString (files !! name).

Section Notions.

Context `{Numbers}.

(** The snapshot a pass works on after its clock query was answered by [q]. *)
Definition refreshed (q : option tm) (s : state) : state :=
  match q with
  | None => s
  | Some t => upd_cal (fun _ => calendar_of t) s
  end.

Definition suspend_task (h : task_id) (t : scheduler) : scheduler :=
  match task_of h t with NotCreated => t | _ => set_task h Suspended t end.

Definition resume_task (h : task_id) (t : scheduler) : scheduler :=
  match task_of h t with NotCreated => t | _ => set_task h Running t end.

(** Effect and calls of the body of the suspend branch, lines 133-136. *)
Definition suspended (s : state) : state :=
  upd_myAdxl (set_mode Standby) (upd_tasks (suspend_task Task3) (upd_tasks (suspend_task Task1) s)).

Definition suspend_calls : list event :=
  [ETaskSuspend Task1; ETaskSuspend Task3; EStandby; ESerial ("Tasks suspended" +:+ CRLF)].

(** Effect and calls of the body of the resume branch, lines 141-144. *)
Definition resumed (s : state) : state :=
  upd_myAdxl (set_mode Measuring) (upd_tasks (resume_task Task3) (upd_tasks (resume_task Task1) s)).

Definition resume_calls : list event :=
  [ETaskResume Task1; ETaskResume Task3; EMeasureModeOn; ESerial ("Tasks resumed" +:+ CRLF)].

(** The globals after lines 105-112 of a pass of [Task1code] that found data
    ready. *)
Definition sampled (env : sample_in) (s : state) : state :=
  upd_bufs (fun b => set_gpsDate
              (log_line (cal s) (accel_to_int (rx env)) (accel_to_int (ry env))
                        (accel_to_int (rz env)))
              (set_Date (date_text (cal s)) b))
    (upd_data (fun _ => mk_vec3 (accel_to_float (rx env)) (accel_to_float (ry env))
                                (accel_to_float (rz env)))
       (upd_myAdxl (set_reading (rx env) (ry env) (rz env)) s)).

Definition is_halt (e : event) : bool :=
  match e with EErrorHalt _ => true | _ => false end.

Definition is_read (e : event) : bool :=
  match e with EReadAccel _ _ _ => true | _ => false end.

Definition is_send (e : event) : bool :=
  match e with ESend _ => true | _ => false end.

Definition is_write (e : event) : bool :=
  match e with EWrite _ _ _ => true | _ => false end.

Definition is_suspend (e : event) : bool :=
  match e with ETaskSuspend _ => true | _ => false end.

(** The calls of [connect_wifi]. *)
Definition connect_calls (env : boot_in) : list event :=
  [ECall "Wire.begin" true; ECall "Serial.begin" true; ECall "WiFi.begin" true;
   ESerial "Connecting to Wi-Fi"]
  ++ concat (replicate (wifi_polls env) [EDelay 500; ESerial "."])
  ++ [ECall "configTime" true].

(** The clock queries number [k] to [k + n - 1] of a boot. *)
Definition polls (clk : nat -> option tm) (k n : nat) : list event :=
  map (fun i => EGetLocalTime (clk i)) (seq k n).

(** The state after these queries. *)
Fixpoint polled (clk : nat -> option tm) (k n : nat) (s : state) : state :=
  match n with
  | O => s
  | S n' => polled clk (S k) n' (refreshed (clk k) s)
  end.

(** An answer of the clock that leaves [yeart] at zero: no answer, or a year
    that [printLocalTime] stores as zero. *)
Definition year0 (q : option tm) : Prop :=
  match q with
  | None => True
  | Some t => CInt.add (tm_year t) 1900 = 0
  end.

(** The packet of one pass of [Task3code], and the state after the pass. *)
Definition packet (s : state) : struct_message :=
  mk_message 11 (data0 (data s)) (data1 (data s)) (data2 (data s)).

Definition test_packet : struct_message :=
  mk_message 11 (int_to_float 5) (int_to_float 5) (int_to_float 5).

Definition sending (p : struct_message) (s : state) : state :=
  set_wifi WIFI_OFF (push_sent p (upd_myData (fun _ => p) (set_wifi (wifi s) s))).

Definition id_is_11 (p : struct_message) : Prop := id p = 11.

End Notions.

(** ** Further notions: the loops, the card over time, the texts of [setup] *)

(** The name that line 192 gives the log file: the three numbers follow one
    another with nothing between them. *)
Definition log_name (c : calendar) : string :=
  "/test" +:+ Fmt.fmt_d (yeart c) +:+ Fmt.fmt_d (montht c) +:+ Fmt.fmt_d (dayt c) +:+ ".csv".

(** The header that line 223 formats. *)
Definition header_text : string := "Date,X,Y,Z,".

(** A date and time of day as the clock gives them, up to the year 9999. *)
Definition valid_calendar (c : calendar) : Prop :=
  0 <= yeart c <= 9999 /\ 1 <= montht c <= 12 /\ 1 <= dayt c <= 31
  /\ 0 <= hourt c <= 23 /\ 0 <= mint c <= 59 /\ 0 <= sect c <= 60.

(** The card only grows: no file goes away, and what a file held is the
    beginning of what it holds. *)
Definition card_grows (old new : gmap string string) : Prop :=
  forall name,
    (is_Some (old !! name) -> is_Some (new !! name))
    /\ exists suffix, content name new = content name old +:+ suffix.


Definition all_running : scheduler := mk_scheduler Running Running Running.

Section FurtherNotions.

Context `{Numbers}.

(** [void OnDataSent(const uint8_t* mac_addr, esp_now_send_status_t status)],
    lines 80-83: the body is a comment. *)
Definition OnDataSent (delivered : bool) : M unit := mret tt.

(** [void loop()], lines 240-242: empty. *)
Definition loop : M unit := mret tt.

(** The first passes of the [for (;;)] loop of [Task1code], lines 100-121,
    one input per pass; a pass that halts ends the run. *)
Fixpoint Task1code_loop (envs : list sample_in) : M unit :=
  match envs with
  | [] => mret tt
  | env :: rest => Task1code env;; Task1code_loop rest
  end.

(** The first [n] passes of the [for (;;)] loop of [Task3code], lines 158-170. *)
Fixpoint Task3code_loop (n : nat) : M unit :=
  match n with
  | O => mret tt
  | S n' => Task3code;; Task3code_loop n'
  end.

(** What a pass of [Task1code] adds to the log when the calendar is [c]:
    its record when data was ready and the write went through, nothing
    otherwise. *)
Definition record_of (c : calendar) (env : sample_in) : string :=
  if ready env && write_ok env
  then log_line c (accel_to_int (rx env)) (accel_to_int (ry env)) (accel_to_int (rz env))
  else EmptyString.

Fixpoint records (c : calendar) (envs : list sample_in) : string :=
  match envs with
  | [] => EmptyString
  | env :: rest => record_of c env +:+ records c rest
  end.

(** A computation that takes every state to a state related to it by [R],
    wherever it stops. *)
Definition within (R : state -> state -> Prop) {A} (m : M A) : Prop :=
  forall s, R s (final_state (m s)).

(** The part [view] of the state is the same. *)
Definition same {V} (view : state -> V) (s s' : state) : Prop := view s' = view s.

Definition grows (s s' : state) : Prop := card_grows (sd s) (sd s').


(** One pass of one of the three tasks (no boot); a pass of [Task1code]
    with calendar fields whose date, as line 111 formats it, fits the array
    [Date]. *)
Inductive task_pass : state -> state -> Prop :=
| pass_sample env s :
    fits (date_text (cal s)) = true -> task_pass s (final_state (Task1code env s))
| pass_control q s : task_pass s (final_state (Task2code q s))
| pass_broadcast s : task_pass s (final_state (Task3code s)).

End FurtherNotions.

(** ** Concrete inputs, on the numbers of the target *)

Module Run.

#[local] Existing Instance Esp32.numbers.

Definition axis (v : Z) (Hv : Esp32.is_int16 v = true) : accel_t := Esp32.i16 v Hv.

Definition chip : adxl313 := mk_adxl (axis 0 eq_refl) (axis 0 eq_refl) (axis 0 eq_refl) Standby.

(** 5 August 2025 at the given time, as [struct tm] has it. *)
Definition on_5_aug (h m sec : Z) : tm := mk_tm sec m h 5 7 125.

(** A clock that is not synchronised at the first query, answers the year
    zero at the second and 21:12:09 at the third. *)
Definition boot_clock (k : nat) : option tm :=
  match k with
  | O => None
  | S O => Some (mk_tm 0 0 0 1 0 (-1900))
  | _ => Some (on_5_aug 21 12 9)
  end.

Definition boot_env : boot_in := mk_boot_in 2 boot_clock true true true true true true.

Definition never_clock (k : nat) : option tm := None.

(** The device after a boot on an empty card. *)
Definition booted : state := final_state (setup 3 boot_env (reboot (power_on chip ∅ []))).

Definition reading (is_ready opens writes : bool) : sample_in :=
  mk_sample_in is_ready (axis 1 eq_refl) (axis (-2) eq_refl) (axis 255 eq_refl) opens writes.

(** The same boot when [setup] has reached line 235. *)
Definition before_launch : state :=
  final_state ((connect_wifi boot_env;; retry_time 3 (clock boot_env) 0;; name_log_file;;
                init_esp_now boot_env;; init_adxl313 boot_env;; init_sd boot_env;; test_send)
                 (reboot (power_on chip ∅ []))).


End Run.

(** ** Proofs *)

(** *** Strings in memory *)

Lemma drop_tl {A} k (m : list A) : drop k (List.tl m) = drop (S k) m.
Proof. destruct m; [destruct k|]; reflexivity. Qed.

Lemma c_string_write_string text m : no_nul text = true -> c_string (write_string text m) = text.
Proof.
  revert m. induction text as [|c text IH]; intros m Hn; [reflexivity|].
  cbn [no_nul] in Hn. apply andb_true_iff in Hn as [Hc Ht].
  cbn [write_string c_string]. destruct (Ascii.eqb c NUL); [discriminate|].
  rewrite IH by exact Ht. reflexivity.
Qed.

Lemma drop_write_string_inside k text m :
  (k <= String.length text)%nat ->
  drop k (write_string text m) = write_string (behind k text) (drop k m).
Proof.
  revert text m. induction k as [|k IH]; intros text m Hk.
  - destruct text; reflexivity.
  - destruct text as [|c text]; [cbn in Hk; lia|].
    cbn [write_string behind]. cbn [drop]. change (skipn k) with (@drop ascii k).
    rewrite IH by (cbn in Hk; lia). rewrite drop_tl. reflexivity.
Qed.

Lemma drop_write_string_after k text m :
  (String.length text < k)%nat -> drop k (write_string text m) = drop k m.
Proof.
  revert k m. induction text as [|c text IH]; intros k m Hk;
    (destruct k as [|k]; [cbn in Hk; lia|]); cbn [write_string].
  - change (drop (S k) (NUL :: List.tl m)) with (drop k (List.tl m)). apply drop_tl.
  - change (drop (S k) (c :: write_string text (List.tl m)))
      with (drop k (write_string text (List.tl m))).
    rewrite IH by (cbn in Hk; lia). apply drop_tl.
Qed.

Lemma drop_write_at off k text m :
  drop (off + k) (write_at off text m) = drop k (write_string text (drop off m)).
Proof.
  revert m. induction off as [|off IH]; intros m; [reflexivity|].
  change (drop (S off + k) (write_at (S off) text m))
    with (drop (off + k) (write_at off text (List.tl m))).
  rewrite IH, drop_tl. reflexivity.
Qed.

Lemma read_write_inside off k text m :
  no_nul text = true -> (k <= String.length text)%nat ->
  read_at (off + k) (write_at off text m) = behind k text.
Proof.
  intros Hn Hk. unfold read_at. rewrite drop_write_at, drop_write_string_inside by exact Hk.
  apply c_string_write_string.
  clear Hk. revert text Hn. induction k as [|k IH]; intros text Hn; [destruct text; exact Hn|].
  destruct text as [|c text]; [reflexivity|].
  cbn [behind]. apply IH. cbn [no_nul] in Hn. apply andb_true_iff in Hn as [_ Ht]. exact Ht.
Qed.

Lemma behind_0 text : behind 0 text = text.
Proof. destruct text; reflexivity. Qed.

Lemma read_write_same off text m :
  no_nul text = true -> read_at off (write_at off text m) = text.
Proof.
  intros Hn. rewrite <- (Nat.add_0_r off) at 1.
  rewrite read_write_inside by (exact Hn || lia). apply behind_0.
Qed.

Lemma read_write_after off off' text m :
  (off + String.length text < off')%nat ->
  read_at off' (write_at off text m) = read_at off' m.
Proof.
  intros Hlt. unfold read_at.
  replace off' with (off + (off' - off))%nat at 1 by lia.
  rewrite drop_write_at, drop_write_string_after by lia.
  rewrite drop_drop. f_equal. f_equal. lia.
Qed.

Lemma length_behind k text : String.length (behind k text) = (String.length text - k)%nat.
Proof.
  revert text. induction k as [|k IH]; intros text; [destruct text; cbn; lia|].
  destruct text as [|c text]; [reflexivity|]. cbn [behind String.length]. rewrite IH. lia.
Qed.

Lemma no_nul_append a b : no_nul (a +:+ b) = no_nul a && no_nul b.
Proof.
  induction a as [|c a IH]; [reflexivity|].
  change (no_nul (String c (a +:+ b)) = no_nul (String c a) && no_nul b).
  cbn [no_nul]. rewrite IH, andb_assoc. reflexivity.
Qed.

Lemma digit_char_not_nul n : Ascii.eqb (Fmt.digit_char (n mod 10)) NUL = false.
Proof.
  unfold Fmt.digit_char.
  assert (Hd : (Z.to_nat (n mod 10) < 10)%nat) by (pose proof (Z.mod_pos_bound n 10); lia).
  generalize dependent (Z.to_nat (n mod 10)). intros k Hd.
  do 10 (destruct k as [|k]; [reflexivity|]). lia.
Qed.

Lemma no_nul_digits fuel n acc : no_nul acc = true -> no_nul (Fmt.digits fuel n acc) = true.
Proof.
  revert n acc. induction fuel as [|fuel IH]; intros n acc Hacc; [exact Hacc|].
  cbn [Fmt.digits].
  assert (Hacc' : no_nul (String (Fmt.digit_char (n mod 10)) acc) = true)
    by (cbn [no_nul]; rewrite digit_char_not_nul, Hacc; reflexivity).
  destruct (n <? 10); [exact Hacc'|apply IH; exact Hacc'].
Qed.

Lemma no_nul_fmt_d v : no_nul (Fmt.fmt_d v) = true.
Proof.
  unfold Fmt.fmt_d, Fmt.fmt_u. destruct (v <? 0).
  - cbn [no_nul]. rewrite no_nul_digits; reflexivity.
  - apply no_nul_digits. reflexivity.
Qed.

(** *** The four arrays: what a [sprintf] into one leaves in each *)

Lemma gpsDate_set_gpsDate t b : no_nul t = true -> gpsDate (set_gpsDate t b) = t.
Proof. apply read_write_same. Qed.


Lemma Date_set_gpsDate_short t b :
  (String.length t < 40)%nat -> Date (set_gpsDate t b) = Date b.
Proof. intros Hlen. apply read_write_after. exact Hlen. Qed.

Lemma Date_set_gpsDate_long t b :
  no_nul t = true -> (40 <= String.length t)%nat -> Date (set_gpsDate t b) = behind 40 t.
Proof. apply (read_write_inside 0 40). Qed.

Lemma cap_set_gpsDate t b : (String.length t < 60)%nat -> cap (set_gpsDate t b) = cap b.
Proof. intros Hlen. apply read_write_after. exact Hlen. Qed.

Lemma Date_set_Date t b : no_nul t = true -> Date (set_Date t b) = t.
Proof. apply read_write_same. Qed.

Lemma cap_set_Date t b : (String.length t < 20)%nat -> cap (set_Date t b) = cap b.
Proof.
  intros Hlen. apply read_write_after. unfold at_Date, at_cap, buffer_size. lia.
Qed.

Lemma header_set_header t b : no_nul t = true -> header (set_header t b) = t.
Proof. apply read_write_same. Qed.

Lemma cap_set_header t b : (String.length t < 40)%nat -> cap (set_header t b) = cap b.
Proof.
  intros Hlen. apply read_write_after. unfold at_header, at_cap, buffer_size. lia.
Qed.

Lemma cap_set_cap t b : no_nul t = true -> cap (set_cap t b) = t.
Proof. apply read_write_same. Qed.

Lemma no_nul_date_text c : no_nul (date_text c) = true.
Proof. unfold date_text. rewrite !no_nul_append, !no_nul_fmt_d. reflexivity. Qed.

Lemma no_nul_log_line c xi yi zi : no_nul (log_line c xi yi zi) = true.
Proof.
  unfold log_line. rewrite !no_nul_append, no_nul_date_text, !no_nul_fmt_d. reflexivity.
Qed.

Lemma no_nul_log_name c : no_nul (log_name c) = true.
Proof. unfold log_name. rewrite !no_nul_append, !no_nul_fmt_d. reflexivity. Qed.

Section Proofs.

Context `{Numbers}.

Lemma printLocalTime_refreshed q s :
  printLocalTime q s = Done tt (refreshed q s) [EGetLocalTime q].
Proof. destruct q as [t|]; destruct s as [[] ? ? ? ? ? ? ? ?]; reflexivity. Qed.

Lemma suspend_test c :
  (hourt c =? 21) && (mint c =? 12) && (sect c =? 10) = bool_decide (triple c = suspend_at).
Proof.
  unfold triple, suspend_at. destruct c as [h m s ? ? ?]; simpl.
  case_bool_decide as Hd.
  - injection Hd as -> -> ->. reflexivity.
  - destruct (Z.eqb_spec h 21), (Z.eqb_spec m 12), (Z.eqb_spec s 10); subst; simpl; congruence.
Qed.

Lemma resume_test c :
  (hourt c =? 6) && (mint c =? 12) && (sect c =? 10) = bool_decide (triple c = resume_at).
Proof.
  unfold triple, resume_at. destruct c as [h m s ? ? ?]; simpl.
  case_bool_decide as Hd.
  - injection Hd as -> -> ->. reflexivity.
  - destruct (Z.eqb_spec h 6), (Z.eqb_spec m 12), (Z.eqb_spec s 10); subst; simpl; congruence.
Qed.

Lemma restart_test c :
  ((hourt c =? 6) && (mint c =? 16) && (sect c =? 10))
  || ((hourt c =? 6) && (mint c =? 18) && (sect c =? 10))
  = bool_decide (triple c ∈ restart_at).
Proof.
  unfold triple, restart_at. destruct c as [h m s ? ? ?]; simpl.
  case_bool_decide as Hd.
  - rewrite !elem_of_cons, elem_of_nil in Hd.
    destruct Hd as [Hd|[Hd|[]]]; injection Hd as -> -> ->; reflexivity.
  - rewrite !elem_of_cons, elem_of_nil in Hd.
    destruct (Z.eqb_spec h 6), (Z.eqb_spec m 16), (Z.eqb_spec m 18), (Z.eqb_spec s 10);
      subst; simpl; try reflexivity; exfalso; apply Hd; auto.
Qed.

Lemma bind_done {A B} (m : M A) (f : A -> M B) s a s' tr :
  m s = Done a s' tr -> (m ≫= f) s = prepend tr (f a s').
Proof. intros Hm. unfold mbind, M_bind. rewrite Hm. reflexivity. Qed.

Lemma bind_stopped {A B} (m : M A) (f : A -> M B) s why s' tr :
  m s = Stopped why s' tr -> (m ≫= f) s = Stopped why s' tr.
Proof. intros Hm. unfold mbind, M_bind. rewrite Hm. reflexivity. Qed.

Lemma prepend_nil {A} (r : result A) : prepend [] r = r.
Proof. destruct r; reflexivity. Qed.

Lemma prepend_prepend {A} tr1 tr2 (r : result A) :
  prepend tr1 (prepend tr2 r) = prepend (tr1 ++ tr2) r.
Proof. destruct r; simpl; rewrite app_assoc; reflexivity. Qed.

Lemma when_bind (cond : state -> bool) (body k : M unit) s :
  (when_ cond body;; k) s = if cond s then (body;; k) s else k s.
Proof.
  unfold when_, mbind, M_bind. destruct (cond s); [reflexivity|].
  apply prepend_nil.
Qed.

Lemma suspend_branch s :
  (vTaskSuspend Task1;; vTaskSuspend Task3;; adxl_standby;; Serial_println "Tasks suspended") s
  = Done tt (suspended s) suspend_calls.
Proof. destruct s; reflexivity. Qed.

Lemma resume_branch s :
  (vTaskResume Task1;; vTaskResume Task3;; adxl_measureModeOn;; Serial_println "Tasks resumed") s
  = Done tt (resumed s) resume_calls.
Proof. destruct s; reflexivity. Qed.

Lemma cal_suspended s : cal (suspended s) = cal s.
Proof. destruct s; reflexivity. Qed.

Lemma cal_resumed s : cal (resumed s) = cal s.
Proof. destruct s; reflexivity. Qed.

Lemma scheduled_suspend_run s :
  scheduled_suspend s =
  if bool_decide (triple (cal s) = suspend_at)
  then Done tt (suspended s) suspend_calls else Done tt s [].
Proof.
  unfold scheduled_suspend, when_. rewrite suspend_test.
  destruct (bool_decide _); [apply suspend_branch|reflexivity].
Qed.

Lemma scheduled_resume_run s :
  scheduled_resume s =
  if bool_decide (triple (cal s) = resume_at)
  then Done tt (resumed s) resume_calls else Done tt s [].
Proof.
  unfold scheduled_resume, when_. rewrite resume_test.
  destruct (bool_decide _); [apply resume_branch|reflexivity].
Qed.

Lemma scheduled_restart_run s :
  scheduled_restart s =
  if bool_decide (triple (cal s) ∈ restart_at)
  then Stopped Restart s [ERestart] else Done tt s [].
Proof.
  unfold scheduled_restart, when_. rewrite restart_test.
  destruct (bool_decide _); destruct s; reflexivity.
Qed.

(** One pass of [Task2code] in closed form. *)
Lemma Task2code_run q s :
  let s1 := refreshed q s in
  let sus := bool_decide (triple (cal s1) = suspend_at) in
  let res := bool_decide (triple (cal s1) = resume_at) in
  let rst := bool_decide (triple (cal s1) ∈ restart_at) in
  let s2 := if sus then suspended s1 else s1 in
  let s3 := if res then resumed s2 else s2 in
  let calls := [EGetLocalTime q] ++ (if sus then suspend_calls else [])
                                 ++ (if res then resume_calls else []) in
  Task2code q s =
    if rst then Stopped Restart s3 (calls ++ [ERestart])
    else Done tt s3 (calls ++ [EDelayUntil 1]).
Proof.
  intros s1 sus res rst s2 s3 calls.
  assert (Hcal2 : cal s2 = cal s1) by (subst s2; destruct sus; [apply cal_suspended|reflexivity]).
  assert (Hcal3 : cal s3 = cal s1).
  { subst s3. rewrite <- Hcal2. destruct res; [apply cal_resumed|reflexivity]. }
  assert (H2 : scheduled_suspend s1 = Done tt s2 (if sus then suspend_calls else [])).
  { rewrite scheduled_suspend_run. fold sus. subst s2. destruct sus; reflexivity. }
  assert (H3 : scheduled_resume s2 = Done tt s3 (if res then resume_calls else [])).
  { rewrite scheduled_resume_run, Hcal2. fold res. subst s3. destruct res; reflexivity. }
  unfold Task2code.
  erewrite bind_done by apply printLocalTime_refreshed. fold s1.
  erewrite bind_done by apply H2.
  erewrite bind_done by apply H3.
  unfold mbind at 1, M_bind at 1. rewrite scheduled_restart_run, Hcal3. fold rst.
  subst calls. destruct rst; simpl; rewrite ?app_nil_r, <- ?app_assoc; reflexivity.
Qed.

(** C1. On every pass of [Task2code] the clock is queried once, first; the
    suspend, resume and restart tests then run in this order, each comparing
    the (hour, minute, second) of the snapshot left by that one query with
    its time of day; a snapshot at 06:16:10 or 06:18:10 ends the pass in
    [ESP.restart()], whatever the states of the tasks. *)
Theorem Task2code_order q s :
  let snapshot := cal (refreshed q s) in
  let sus := bool_decide (triple snapshot = suspend_at) in
  let res := bool_decide (triple snapshot = resume_at) in
  let rst := bool_decide (triple snapshot ∈ restart_at) in
  trace_of (Task2code q s) =
    [EGetLocalTime q] ++ (if sus then suspend_calls else [])
                      ++ (if res then resume_calls else [])
                      ++ (if rst then [ERestart] else [EDelayUntil 1])
  /\ final_state (Task2code q s) =
       (let s2 := if sus then suspended (refreshed q s) else refreshed q s in
        if res then resumed s2 else s2)
  /\ (if rst then exists s' tr, Task2code q s = Stopped Restart s' tr
      else exists s' tr, Task2code q s = Done tt s' tr).
Proof.
  intros snapshot sus res rst.
  pose proof (Task2code_run q s) as Hrun. cbv zeta in Hrun.
  fold snapshot in Hrun. fold sus res rst in Hrun. rewrite Hrun.
  destruct rst, sus, res; repeat split; eauto.
Qed.

(** C2. When the (hour, minute, second) of the snapshot is none of the four
    times of day, a pass of [Task2code] only refreshes the calendar fields:
    it makes no call but the clock query and the delay, and the lifecycle of
    every task and the power mode of the sensor are what they were. *)
Theorem Task2code_no_trigger q s :
  triple (cal (refreshed q s)) <> suspend_at ->
  triple (cal (refreshed q s)) <> resume_at ->
  triple (cal (refreshed q s)) ∉ restart_at ->
  exists s',
    Task2code q s = Done tt s' [EGetLocalTime q; EDelayUntil 1]
    /\ tasks s' = tasks s
    /\ mode (myAdxl s') = mode (myAdxl s).
Proof.
  intros Hsus Hres Hrst. exists (refreshed q s).
  pose proof (Task2code_run q s) as Hrun. cbv zeta in Hrun.
  rewrite !bool_decide_eq_false_2 in Hrun by assumption.
  split; [exact Hrun|].
  destruct q, s; split; reflexivity.
Qed.

(** X18. With both tasks created: a pass of [Task2code] whose snapshot is
    at the suspend time leaves Task1 and Task3 [Suspended] and the sensor in
    standby; one whose snapshot is at the resume time leaves both [Running]
    and the sensor measuring; and every pass either leaves the two tasks and
    the sensor as they were or has done one of these two things. *)
Theorem triggers_are_coupled q s :
  task1 (tasks s) <> NotCreated ->
  task3 (tasks s) <> NotCreated ->
  let snapshot := cal (refreshed q s) in
  let s' := final_state (Task2code q s) in
  let both (l : lifecycle) (m : power_mode) :=
    task1 (tasks s') = l /\ task3 (tasks s') = l /\ mode (myAdxl s') = m in
  (triple snapshot = suspend_at -> both Suspended Standby)
  /\ (triple snapshot = resume_at -> both Running Measuring)
  /\ ((task1 (tasks s') = task1 (tasks s) /\ task3 (tasks s') = task3 (tasks s)
       /\ mode (myAdxl s') = mode (myAdxl s))
      \/ both Suspended Standby \/ both Running Measuring).
Proof.
  intros H1 H3 snapshot s' both.
  assert (Hs' : s' = let s2 := if bool_decide (triple snapshot = suspend_at)
                                then suspended (refreshed q s) else refreshed q s in
                      if bool_decide (triple snapshot = resume_at) then resumed s2 else s2).
  { subst s'. pose proof (Task2code_run q s) as Hrun. cbv zeta in Hrun.
    fold snapshot in Hrun. rewrite Hrun.
    destruct (bool_decide (triple snapshot ∈ restart_at)),
      (bool_decide (triple snapshot = suspend_at)),
      (bool_decide (triple snapshot = resume_at)); reflexivity. }
  assert (Htasks : tasks (refreshed q s) = tasks s /\ myAdxl (refreshed q s) = myAdxl s)
    by (destruct q, s; split; reflexivity).
  destruct Htasks as [Ht Ha].
  assert (Hsusp : forall u, task1 (tasks u) <> NotCreated -> task3 (tasks u) <> NotCreated ->
            task1 (tasks (suspended u)) = Suspended /\ task3 (tasks (suspended u)) = Suspended
            /\ mode (myAdxl (suspended u)) = Standby).
  { intros [? ? ? ? ? [[] ? []] ? ? ?]; simpl; intros; repeat split; congruence. }
  assert (Hresm : forall u, task1 (tasks u) <> NotCreated -> task3 (tasks u) <> NotCreated ->
            task1 (tasks (resumed u)) = Running /\ task3 (tasks (resumed u)) = Running
            /\ mode (myAdxl (resumed u)) = Measuring).
  { intros [? ? ? ? ? [[] ? []] ? ? ?]; simpl; intros; repeat split; congruence. }
  rewrite <- Ht in H1, H3.
  subst both. cbv beta. rewrite Hs'. cbv zeta.
  split; [|split].
  - intros Hsus. rewrite (bool_decide_eq_true_2 _ Hsus).
    rewrite bool_decide_eq_false_2 by (rewrite Hsus; discriminate).
    apply Hsusp; assumption.
  - intros Hres. rewrite (bool_decide_eq_true_2 _ Hres).
    rewrite (bool_decide_eq_false_2 (triple snapshot = suspend_at)) by (rewrite Hres; discriminate).
    apply Hresm; assumption.
  - destruct (bool_decide_reflect (triple snapshot = resume_at)) as [Hres|Hres],
      (bool_decide_reflect (triple snapshot = suspend_at)) as [Hsus|Hsus].
    + rewrite Hres in Hsus. discriminate.
    + right; right. apply Hresm; assumption.
    + right; left. apply Hsusp; assumption.
    + left. rewrite Ht, Ha. auto.
Qed.

(** C3 (the code against the claim). [Task2code] makes its first pass when
    line 236 has created it and before line 237 has created Task3.  When
    that pass finds the suspend time, it suspends Task1 and calls
    [vTaskSuspend] on the handle of Task3, which is still NULL: Task3 is not
    suspended, and line 237 then starts it while Task1 stays suspended. *)
Theorem suspend_before_Task3_exists q s0 :
  tasks s0 = mk_scheduler NotCreated NotCreated NotCreated ->
  let window := final_state (launch_window s0) in
  triple (cal (refreshed q window)) = suspend_at ->
  let pass := Task2code q window in
  let s1 := final_state pass in
  let s2 := final_state (xTaskCreatePinnedToCore Task3 s1) in
  launch_tasks s0 = (launch_window;; xTaskCreatePinnedToCore Task3) s0
  /\ tasks window = mk_scheduler Running Running NotCreated
  /\ List.filter is_suspend (trace_of pass) = [ETaskSuspend Task1; ETaskSuspend Task3]
  /\ task1 (tasks s1) = Suspended /\ task3 (tasks s1) = NotCreated
  /\ task1 (tasks s2) = Suspended /\ task3 (tasks s2) = Running.
Proof.
  intros Hnone window Hat pass s1 s2.
  assert (Hwindow : tasks window = mk_scheduler Running Running NotCreated).
  { subst window. destruct s0 as [? ? ? ? ? t ? ? ?]. cbn in Hnone. subst t. reflexivity. }
  assert (Hres : triple (cal (refreshed q window)) <> resume_at)
    by (rewrite Hat; discriminate).
  assert (Hrst : triple (cal (refreshed q window)) ∉ restart_at).
  { rewrite Hat. unfold restart_at, suspend_at. rewrite !elem_of_cons, elem_of_nil.
    intros [Heq|[Heq|[]]]; discriminate. }
  pose proof (Task2code_run q window) as Hrun. cbv zeta in Hrun.
  rewrite (bool_decide_eq_true_2 _ Hat), (bool_decide_eq_false_2 _ Hres),
    (bool_decide_eq_false_2 _ Hrst) in Hrun.
  assert (Hs1 : tasks s1 = mk_scheduler Suspended Running NotCreated).
  { subst s1 pass. rewrite Hrun. cbn [final_state].
    assert (Ht : tasks (refreshed q window) = tasks window) by (destruct q, window; reflexivity).
    rewrite Hwindow in Ht. destruct (refreshed q window) as [? ? ? ? ? t ? ? ?].
    cbn in Ht. subst t. reflexivity. }
  split; [destruct s0; reflexivity|]. split; [exact Hwindow|]. split.
  { subst pass. rewrite Hrun. reflexivity. }
  rewrite Hs1. split; [reflexivity|]. split; [reflexivity|].
  subst s2. destruct s1 as [? ? ? ? ? t ? ? ?]. cbn in Hs1. subst t. split; reflexivity.
Qed.

(** C10. When the clock query fails, [printLocalTime] makes no other call
    and changes nothing: the six calendar fields are those of the previous
    snapshot, and the pass of [Task2code] that made the query runs its three
    tests on them. *)
Theorem failed_query_keeps_snapshot s :
  printLocalTime None s = Done tt s [EGetLocalTime None]
  /\ Task2code None s =
       prepend [EGetLocalTime None]
         ((scheduled_suspend;; scheduled_resume;; scheduled_restart;; vTaskDelayUntil 1) s)
  /\ trace_of (Task2code None s) =
       [EGetLocalTime None]
         ++ (if bool_decide (triple (cal s) = suspend_at) then suspend_calls else [])
         ++ (if bool_decide (triple (cal s) = resume_at) then resume_calls else [])
         ++ (if bool_decide (triple (cal s) ∈ restart_at) then [ERestart] else [EDelayUntil 1]).
Proof.
  assert (Hq : printLocalTime None s = Done tt s [EGetLocalTime None])
    by apply (printLocalTime_refreshed None).
  split; [exact Hq|]. split.
  - unfold Task2code. erewrite bind_done by exact Hq. reflexivity.
  - pose proof (Task2code_run None s) as Hrun. cbv zeta in Hrun.
    unfold refreshed in Hrun. rewrite Hrun.
    destruct (bool_decide (triple (cal s) ∈ restart_at)); simpl;
      rewrite <- !app_assoc; reflexivity.
Qed.

(** *** Lengths of [%d] renderings *)





Lemma length_append (a b : string) :
  String.length (a +:+ b) = (String.length a + String.length b)%nat.
Proof.
  induction a as [|c a IH]; [reflexivity|].
  change (S (String.length (a +:+ b)) = S (String.length a + String.length b)).
  rewrite IH. reflexivity.
Qed.

Lemma append_empty_r (a : string) : a +:+ EmptyString = a.
Proof.
  induction a as [|c a IH]; [reflexivity|].
  change (String c (a +:+ EmptyString) = String c a). rewrite IH. reflexivity.
Qed.

Lemma digits_length_le k fuel n acc :
  0 <= n < 10 ^ Z.of_nat (S k) ->
  (String.length (Fmt.digits fuel n acc) <= String.length acc + S k)%nat.
Proof.
  revert fuel n acc. induction k as [|k IH]; intros fuel n acc Hn;
    (destruct fuel as [|fuel]; [cbn; lia|]); cbn [Fmt.digits].
  - destruct (Z.ltb_spec n 10) as [_|Hge]; [cbn; lia|].
    change (10 ^ Z.of_nat 1) with 10 in Hn. lia.
  - destruct (Z.ltb_spec n 10) as [_|Hge]; [cbn; lia|].
    etransitivity; [apply IH|cbn; lia].
    rewrite Nat2Z.inj_succ, Z.pow_succ_r in Hn by lia.
    split; [apply Z.div_pos; lia|].
    apply Z.div_lt_upper_bound; lia.
Qed.

Lemma fmt_d_length_le k v :
  0 <= v < 10 ^ Z.of_nat (S k) -> (String.length (Fmt.fmt_d v) <= S k)%nat.
Proof.
  intros Hv. unfold Fmt.fmt_d. destruct (Z.ltb_spec v 0) as [?|_]; [lia|].
  unfold Fmt.fmt_u. etransitivity; [apply (digits_length_le k); exact Hv|]. cbn. lia.
Qed.

Lemma date_text_length c : valid_calendar c -> (String.length (date_text c) <= 19)%nat.
Proof.
  intros (Hy & Hmo & Hd & Hh & Hmi & Hs). unfold date_text. rewrite !length_append.
  pose proof (fmt_d_length_le 3 (yeart c)) as Ly.
  pose proof (fmt_d_length_le 1 (montht c)) as Lmo.
  pose proof (fmt_d_length_le 1 (dayt c)) as Ld.
  pose proof (fmt_d_length_le 1 (hourt c)) as Lh.
  pose proof (fmt_d_length_le 1 (mint c)) as Lmi.
  pose proof (fmt_d_length_le 1 (sect c)) as Ls.
  change (10 ^ Z.of_nat 4) with 10000 in Ly.
  change (10 ^ Z.of_nat 2) with 100 in Lmo, Ld, Lh, Lmi, Ls.
  cbn [String.length]. lia.
Qed.

Lemma log_name_length c : valid_calendar c -> (String.length (log_name c) <= 17)%nat.
Proof.
  intros (Hy & Hmo & Hd & _). unfold log_name. rewrite !length_append.
  pose proof (fmt_d_length_le 3 (yeart c)) as Ly.
  pose proof (fmt_d_length_le 1 (montht c)) as Lmo.
  pose proof (fmt_d_length_le 1 (dayt c)) as Ld.
  change (10 ^ Z.of_nat 4) with 10000 in Ly.
  change (10 ^ Z.of_nat 2) with 100 in Lmo, Ld.
  cbn [String.length]. lia.
Qed.

(** An [int] is rendered on eleven characters at most. *)
Lemma fmt_d_length_int v : CInt.in_range v -> (String.length (Fmt.fmt_d v) <= 11)%nat.
Proof.
  unfold CInt.in_range. change (2 ^ 31) with 2147483648. intros Hv. unfold Fmt.fmt_d.
  destruct (Z.ltb_spec v 0) as [Hneg|Hpos].
  - unfold Fmt.fmt_u. cbn [String.length].
    pose proof (digits_length_le 9 (S (Z.to_nat (Z.log2 (- v)))) (- v) "") as Hd.
    change (10 ^ Z.of_nat 10) with 10000000000 in Hd. cbn [String.length] in Hd.
    assert (Hrange : 0 <= - v < 10000000000) by lia.
    specialize (Hd Hrange). lia.
  - unfold Fmt.fmt_u.
    pose proof (digits_length_le 9 (S (Z.to_nat (Z.log2 v))) v "") as Hd.
    change (10 ^ Z.of_nat 10) with 10000000000 in Hd. cbn [String.length] in Hd.
    assert (Hrange : 0 <= v < 10000000000) by lia.
    specialize (Hd Hrange). lia.
Qed.

(** With a date that fits [Date], a record of [int] values ends before
    [cap]. *)
Lemma log_line_length_le c xi yi zi :
  fits (date_text c) = true ->
  CInt.in_range xi -> CInt.in_range yi -> CInt.in_range zi ->
  (String.length (log_line c xi yi zi) <= 57)%nat.
Proof.
  unfold fits, buffer_size. intros Hd%Nat.ltb_lt Hx Hy Hz.
  unfold log_line. rewrite !length_append.
  pose proof (fmt_d_length_int _ Hx). pose proof (fmt_d_length_int _ Hy).
  pose proof (fmt_d_length_int _ Hz). cbn [String.length LF]. lia.
Qed.

(** *** [Task1code] *)

(** Line 111 formats [date_text], line 112 formats [log_line]. *)
Lemma sprintf_Date c :
  sprintf "%d/%d/%d %d:%d:%d"
    [AInt (yeart c); AInt (montht c); AInt (dayt c); AInt (hourt c); AInt (mint c); AInt (sect c)]
  = date_text c.
Proof.
  unfold date_text. cbv [sprintf Ascii.eqb Bool.eqb render].
  rewrite append_empty_r. reflexivity.
Qed.

Lemma sprintf_gpsDate c xi yi zi :
  sprintf ("%s,%d,%d,%d," +:+ LF) [AStr (date_text c); AInt xi; AInt yi; AInt zi]
  = log_line c xi yi zi.
Proof. reflexivity. Qed.

Ltac run_Task1code :=
  cbv [Task1code mbind M_bind mret M_ret adxl_dataReady emit prepend
       ready rx ry rz open_ok write_ok adxl_readAccel modify gets
       ofstream_app ofstream_put ofstream_close error stop_with vTaskDelayUntil app
       upd_sd upd_bufs upd_data upd_myAdxl cal bufs data myData myAdxl tasks sd wifi sent
       set_reading set_data0 set_data1 set_data2
       data0 data1 data2 adxl_x adxl_y adxl_z mode].

(** One pass of [Task1code] that finds data ready, in closed form. *)
Lemma Task1code_ready env s :
  ready env = true ->
  let s1 := sampled env s in
  let name := cap (bufs s1) in
  let line := gpsDate (bufs s1) in
  Task1code env s =
    if open_ok env then
      Done tt
        (upd_sd (fun files => if write_ok env then appended name line (opened name files)
                              else opened name files) s1)
        [EDataReady true; EReadAccel (rx env) (ry env) (rz env); EOpen name true;
         EWrite name line (write_ok env); EClose name; EDelayUntil 1]
    else
      Stopped Halt s1
        [EDataReady true; EReadAccel (rx env) (ry env) (rz env); EOpen name false;
         EErrorHalt "open failed"].
Proof.
  destruct env as [r ax ay az oo wo], s as [c b d m a t f w se]. simpl.
  intros ->. destruct oo, wo; run_Task1code;
    rewrite sprintf_Date, (Date_set_Date _ _ (no_nul_date_text c)), sprintf_gpsDate;
    reflexivity.
Qed.

Lemma Task1code_not_ready env s :
  ready env = false -> Task1code env s = Done tt s [EDataReady false; EDelayUntil 1].
Proof.
  destruct env as [r ax ay az oo wo], s as [c b d m a t f w se]. simpl.
  intros ->. reflexivity.
Qed.

Lemma bufs_after_sample env s :
  ready env = true -> bufs (final_state (Task1code env s)) = bufs (sampled env s).
Proof.
  intros Hr. pose proof (Task1code_ready env s Hr) as Hrun. cbv zeta in Hrun.
  rewrite Hrun. destruct (open_ok env); destruct s; reflexivity.
Qed.

Lemma data_after_sample env s :
  ready env = true -> data (final_state (Task1code env s)) = data (sampled env s).
Proof.
  intros Hr. pose proof (Task1code_ready env s Hr) as Hrun. cbv zeta in Hrun.
  rewrite Hrun. destruct (open_ok env); destruct s; reflexivity.
Qed.

Lemma gpsDate_sampled env s :
  gpsDate (bufs (sampled env s))
  = log_line (cal s) (accel_to_int (rx env)) (accel_to_int (ry env)) (accel_to_int (rz env)).
Proof.
  destruct s. cbn [sampled bufs cal upd_bufs upd_data upd_myAdxl].
  apply gpsDate_set_gpsDate, no_nul_log_line.
Qed.

Lemma bufs_upd_sd f s : bufs (upd_sd f s) = bufs s.
Proof. reflexivity. Qed.

Lemma bufs_upd_bufs f s : bufs (upd_bufs f s) = f (bufs s).
Proof. reflexivity. Qed.

Lemma sd_upd_sd f s : sd (upd_sd f s) = f (sd s).
Proof. reflexivity. Qed.

Lemma sd_sampled env s : sd (sampled env s) = sd s.
Proof. reflexivity. Qed.

Lemma cal_sampled env s : cal (sampled env s) = cal s.
Proof. reflexivity. Qed.

(** The name in [cap] outlives lines 111-112 when the date fits [Date]. *)
Lemma cap_sampled env s :
  fits (date_text (cal s)) = true -> cap (bufs (sampled env s)) = cap (bufs s).
Proof.
  intros Hfit. destruct s as [c b ? ? ? ? ? ? ?].
  cbn [sampled bufs cal upd_bufs upd_data upd_myAdxl] in *.
  rewrite cap_set_gpsDate, cap_set_Date; [reflexivity| |].
  - unfold fits, buffer_size in Hfit. apply Nat.ltb_lt in Hfit. exact Hfit.
  - pose proof (log_line_length_le c _ _ _ Hfit (accel_to_int_range (rx env))
                  (accel_to_int_range (ry env)) (accel_to_int_range (rz env))).
    lia.
Qed.

(** What the array [Date] holds after lines 111-112: the date, or the end
    of a record of forty characters or more. *)
Lemma Date_sampled env s :
  let record := log_line (cal s) (accel_to_int (rx env)) (accel_to_int (ry env))
                         (accel_to_int (rz env)) in
  Date (bufs (sampled env s))
  = if (String.length record <? 40)%nat then date_text (cal s) else behind 40 record.
Proof.
  intros record. destruct s as [c b ? ? ? ? ? ? ?].
  cbn [sampled bufs cal upd_bufs upd_data upd_myAdxl] in *. fold record.
  destruct (Nat.ltb_spec (String.length record) 40) as [Hshort|Hlong].
  - rewrite Date_set_gpsDate_short by exact Hshort.
    apply Date_set_Date, no_nul_date_text.
  - apply Date_set_gpsDate_long; [apply no_nul_log_line|exact Hlong].
Qed.

Lemma Date_sampled_fits env s :
  fits (date_text (cal s)) = true -> fits (Date (bufs (sampled env s))) = true.
Proof.
  intros Hfit. rewrite Date_sampled. cbv zeta.
  pose proof (log_line_length_le (cal s) _ _ _ Hfit (accel_to_int_range (rx env))
                (accel_to_int_range (ry env)) (accel_to_int_range (rz env))) as Hlen.
  destruct (String.length _ <? 40)%nat; [exact Hfit|].
  unfold fits, buffer_size. apply Nat.ltb_lt. rewrite length_behind. lia.
Qed.

Lemma cap_after_sample env s :
  fits (date_text (cal s)) = true -> cap (bufs (final_state (Task1code env s))) = cap (bufs s).
Proof.
  intros Hfit. destruct (ready env) eqn:Hr.
  - rewrite (bufs_after_sample env s Hr). apply cap_sampled. exact Hfit.
  - rewrite (Task1code_not_ready env s Hr). reflexivity.
Qed.

Lemma content_opened name files : content name (opened name files) = content name files.
Proof.
  unfold content, opened. destruct (files !! name) eqn:Hl.
  - rewrite Hl. reflexivity.
  - rewrite lookup_insert_eq. reflexivity.
Qed.

Lemma content_appended name text files :
  content name (appended name text files) = content name files +:+ text.
Proof. unfold content, appended. rewrite lookup_insert_eq. reflexivity. Qed.

(** C5 (the code against the claim). A pass of [Task1code] that finds data
    ready halts with "open failed" when the stream does not open; when the
    stream opens and the write fails, the pass goes on to its end without a
    halt, and the file holds what it held: the record is lost in silence.
    The file is the one that [cap] names when the stream is opened, which is
    the name it held before the pass when the date fits [Date]. *)
Theorem write_failure_goes_unnoticed env s :
  ready env = true ->
  (open_ok env = false ->
     exists s' tr, Task1code env s = Stopped Halt s' tr
                   /\ List.filter is_halt tr = [EErrorHalt "open failed"]
                   /\ sd s' = sd s)
  /\ (open_ok env = true -> write_ok env = false ->
     exists s' tr, Task1code env s = Done tt s' tr
                   /\ In (EWrite (cap (bufs s')) (gpsDate (bufs s')) false) tr
                   /\ List.filter is_halt tr = []
                   /\ content (cap (bufs s')) (sd s') = content (cap (bufs s')) (sd s)
                   /\ (fits (date_text (cal s)) = true -> cap (bufs s') = cap (bufs s))).
Proof.
  intros Hr. pose proof (Task1code_ready env s Hr) as Hrun. cbv zeta in Hrun.
  split.
  - intros Ho. rewrite Ho in Hrun. eexists _, _. split; [exact Hrun|].
    split; [reflexivity|]. destruct s; reflexivity.
  - intros Ho Hw. rewrite Ho, Hw in Hrun. eexists _, _. split; [exact Hrun|].
    split; [|split; [reflexivity|split]].
    + destruct s; simpl. auto.
    + destruct s; simpl. apply content_opened.
    + intros Hfit. rewrite <- (cap_sampled env s Hfit). destruct s; reflexivity.
Qed.

(** C6. A pass of [Task1code] that finds no data ready calls the readiness
    test and the delay and nothing else, and leaves the whole state, the
    sample buffer and the card with it, as it was. *)
Theorem not_ready_pass_is_idle env s :
  ready env = false ->
  exists s' tr,
    Task1code env s = Done tt s' tr
    /\ tr = [EDataReady false; EDelayUntil 1]
    /\ List.filter is_read tr = []
    /\ s' = s /\ data s' = data s /\ sd s' = sd s.
Proof.
  intros Hr. exists s, [EDataReady false; EDelayUntil 1].
  split; [apply Task1code_not_ready; exact Hr|].
  repeat split; reflexivity.
Qed.


(** C9. In a pass of [Task1code] that finds data ready there is one sensor
    read; [data] receives its three values, and the record formatted in the
    same pass carries, as its axis fields, the truncations of these three
    floats; that record is the text given to the stream.  The stream is on
    the file that [cap] names when it is opened, which is the name [cap]
    held before the pass when the date fits [Date]. *)
Theorem log_and_buffer_share_one_read env s :
  conversions_agree ->
  ready env = true ->
  let r := Task1code env s in
  let s' := final_state r in
  List.filter is_read (trace_of r) = [EReadAccel (rx env) (ry env) (rz env)]
  /\ data s' = mk_vec3 (accel_to_float (rx env)) (accel_to_float (ry env))
                       (accel_to_float (rz env))
  /\ gpsDate (bufs s')
       = log_line (cal s) (float_to_int (data0 (data s'))) (float_to_int (data1 (data s')))
                  (float_to_int (data2 (data s')))
  /\ (open_ok env = true ->
        In (EWrite (cap (bufs s')) (gpsDate (bufs s')) (write_ok env)) (trace_of r))
  /\ (open_ok env = true -> write_ok env = true ->
        content (cap (bufs s')) (sd s')
          = content (cap (bufs s')) (sd s) +:+ gpsDate (bufs s'))
  /\ (fits (date_text (cal s)) = true -> cap (bufs s') = cap (bufs s)).
Proof.
  intros Hconv Hr r s'.
  assert (Hdata : data s' = mk_vec3 (accel_to_float (rx env)) (accel_to_float (ry env))
                                    (accel_to_float (rz env))).
  { subst s' r. rewrite (data_after_sample env s Hr). destruct s; reflexivity. }
  assert (Hbufs : bufs s' = bufs (sampled env s)) by apply (bufs_after_sample env s Hr).
  assert (Hline : gpsDate (bufs s') = log_line (cal s) (accel_to_int (rx env))
                    (accel_to_int (ry env)) (accel_to_int (rz env))).
  { rewrite Hbufs. apply gpsDate_sampled. }
  pose proof (Task1code_ready env s Hr) as Hrun. cbv zeta in Hrun.
  split; [|split; [exact Hdata|split; [|split; [|split]]]].
  - subst r. rewrite Hrun. destruct (open_ok env); reflexivity.
  - rewrite Hline, Hdata. cbn [data0 data1 data2]. rewrite !Hconv. reflexivity.
  - intros Ho. rewrite Hbufs. subst r. rewrite Hrun, Ho.
    cbn [trace_of In]. auto 10.
  - intros Ho Hw. rewrite Hbufs. subst s' r. rewrite Hrun, Ho, Hw.
    cbn [final_state]. rewrite sd_upd_sd, sd_sampled, content_appended, content_opened.
    reflexivity.
  - intros Hfit. rewrite Hbufs. apply cap_sampled. exact Hfit.
Qed.

(** *** The radio *)

Lemma Task3code_run s :
  Task3code s =
  Done tt (sending (packet s) s)
       [EWifiMode WIFI_STA; ESend (packet s); EDelay 2000; EWifiMode WIFI_OFF].
Proof. destruct s; reflexivity. Qed.

Lemma test_send_run s :
  test_send s = Done tt (sending test_packet s) [ESend test_packet; EWifiMode WIFI_OFF].
Proof. destruct s; reflexivity. Qed.

Lemma sent_sending p s : sent (sending p s) = sent s ++ [p].
Proof. destruct s; reflexivity. Qed.

Lemma final_state_prepend {A} tr (r : result A) : final_state (prepend tr r) = final_state r.
Proof. destruct r; reflexivity. Qed.

(** Computations that keep a property of the state, wherever they stop. *)
Definition keeps {A} (P : state -> Prop) (m : M A) : Prop :=
  forall s, P s -> P (final_state (m s)).

Lemma keeps_bind {A B} P (m : M A) (f : A -> M B) :
  keeps P m -> (forall a, keeps P (f a)) -> keeps P (m ≫= f).
Proof.
  intros Hm Hf s Hs. unfold mbind, M_bind.
  specialize (Hm s Hs). destruct (m s) as [a s1 tr1|why s1 tr1]; simpl in *.
  - rewrite final_state_prepend. apply Hf, Hm.
  - exact Hm.
Qed.

Lemma keeps_ret {A} P (a : A) : keeps P (mret a).
Proof. intros s Hs. exact Hs. Qed.

Lemma keeps_emit P e : keeps P (emit e).
Proof. intros s Hs. exact Hs. Qed.

Lemma keeps_gets {A} P (f : state -> A) : keeps P (gets f).
Proof. intros s Hs. exact Hs. Qed.

Lemma keeps_stop P why : keeps P (stop_with why).
Proof. intros s Hs. exact Hs. Qed.

Lemma keeps_when P cond body : keeps P body -> keeps P (when_ cond body).
Proof. intros Hb s Hs. unfold when_. destruct (cond s); [apply Hb, Hs|exact Hs]. Qed.

Section SentOnly.

(** A property that looks at the packets sent and at nothing else. *)
Variable P : state -> Prop.

Hypothesis P_sent : forall s s', sent s' = sent s -> P s -> P s'.

Lemma keeps_modify f : (forall s, sent (f s) = sent s) -> keeps P (modify f).
Proof. intros Hf s Hs. simpl. apply (P_sent s); [apply Hf|exact Hs]. Qed.

Ltac quiet :=
  repeat first
    [ apply keeps_ret | apply keeps_emit | apply keeps_gets | apply keeps_stop
    | apply keeps_modify; intros []; reflexivity
    | apply keeps_when
    | apply keeps_bind; [|intros ?]
    | match goal with
      | |- keeps _ (if ?b then _ else _) => destruct b
      | |- keeps _ (match ?o with Some _ => _ | None => _ end) => destruct o
      end ].

Lemma keeps_printLocalTime q : keeps P (printLocalTime q).
Proof. unfold printLocalTime, getLocalTime. quiet. Qed.

Lemma keeps_Task1code env : keeps P (Task1code env).
Proof.
  unfold Task1code, adxl_dataReady, adxl_readAccel, ofstream_app, ofstream_put,
    ofstream_close, error, vTaskDelayUntil.
  quiet.
Qed.

Lemma keeps_Task2code q : keeps P (Task2code q).
Proof.
  unfold Task2code. apply keeps_bind; [apply keeps_printLocalTime|intros _].
  unfold scheduled_suspend, scheduled_resume, scheduled_restart, vTaskSuspend, vTaskResume,
    adxl_standby, adxl_measureModeOn, Serial_println, ESP_restart, vTaskDelayUntil.
  quiet.
Qed.

Lemma keeps_wifi_wait n : keeps P (wifi_wait n).
Proof. induction n as [|n IH]; simpl; unfold delay, Serial_print; quiet. exact IH. Qed.

Lemma keeps_retry_time fuel clk k : keeps P (retry_time fuel clk k).
Proof.
  revert k. induction fuel as [|fuel IH]; intros k; simpl; [apply keeps_stop|].
  apply keeps_bind; [apply keeps_printLocalTime|intros _].
  apply keeps_bind; [apply keeps_gets|intros y].
  destruct (y =? 0); [apply IH|apply keeps_ret].
Qed.

Lemma keeps_connect_wifi env : keeps P (connect_wifi env).
Proof.
  unfold connect_wifi, call, Serial_print.
  repeat (apply keeps_bind; [|intros ?]); try apply keeps_wifi_wait; quiet.
Qed.

Lemma keeps_boot_blocks env :
  keeps P name_log_file /\ keeps P (init_esp_now env) /\ keeps P (init_adxl313 env)
  /\ keeps P (init_sd env) /\ keeps P launch_tasks.
Proof.
  unfold name_log_file, init_esp_now, init_adxl313, init_sd, launch_tasks, call, WiFi_mode,
    Serial_println, adxl_standby, adxl_measureModeOn, sd_exists, file_open_excl, error,
    file_print, file_println, file_close, ofstream_put, ofstream_close,
    xTaskCreatePinnedToCore.
  repeat split; quiet.
Qed.

End SentOnly.

Lemma all_11_sent_only s s' :
  sent s' = sent s -> Forall id_is_11 (sent s) -> Forall id_is_11 (sent s').
Proof. intros ->. auto. Qed.

Lemma keeps_sending_11 p (m : M unit) tr :
  id_is_11 p -> (forall s, m s = Done tt (sending p s) tr) ->
  keeps (fun s => Forall id_is_11 (sent s)) m.
Proof.
  intros Hp Hm s Hs. rewrite Hm. cbn [final_state]. rewrite sent_sending.
  apply Forall_app. split; [exact Hs|]. constructor; [exact Hp|constructor].
Qed.

Lemma keeps_setup fuel env : keeps (fun s => Forall id_is_11 (sent s)) (setup fuel env).
Proof.
  set (P := fun s => Forall id_is_11 (sent s)).
  destruct (keeps_boot_blocks P all_11_sent_only env) as (Hn & He & Ha & Hs & Hl).
  pose proof (keeps_connect_wifi P env) as Hc.
  pose proof (keeps_retry_time P all_11_sent_only fuel (clock env) 0%nat) as Hr.
  assert (Ht : keeps P test_send).
  { apply (keeps_sending_11 test_packet _ [ESend test_packet; EWifiMode WIFI_OFF]);
      [reflexivity|apply test_send_run]. }
  unfold setup, setup_run.
  repeat (apply keeps_bind; [assumption|intros _]).
  exact Hl.
Qed.

(** C8. The test send of [setup] gives [esp_now_send] the packet with [id]
    11 and 5, 5, 5; every pass of [Task3code] gives it one packet, with [id]
    11 and the three values of [data]; and in every state the device can
    reach by boots and passes of its tasks, in any number and order, every
    packet that was sent has [id] 11. *)
Theorem every_packet_has_id_11 :
  (forall s, test_send s = Done tt (sending test_packet s) [ESend test_packet; EWifiMode WIFI_OFF]
             /\ id test_packet = 11
             /\ sent (sending test_packet s) = sent s ++ [test_packet])
  /\ (forall s, exists s' tr,
        Task3code s = Done tt s' tr
        /\ List.filter is_send tr = [ESend (packet s)]
        /\ sent s' = sent s ++ [packet s]
        /\ id (packet s) = 11)
  /\ (forall s, reachable s -> Forall id_is_11 (sent s)).
Proof.
  split; [|split].
  - intros s. split; [apply test_send_run|]. split; [reflexivity|apply sent_sending].
  - intros s. eexists _, _. split; [apply Task3code_run|].
    split; [reflexivity|]. split; [apply sent_sending|reflexivity].
  - intros s Hreach. induction Hreach as [chip card|s s' _ IH Hmove].
    + constructor.
    + destruct Hmove as [fuel env s|env s _|q s _|s _].
      * apply keeps_setup. exact IH.
      * apply (keeps_Task1code _ all_11_sent_only). exact IH.
      * apply (keeps_Task2code _ all_11_sent_only). exact IH.
      * rewrite Task3code_run. cbn [final_state]. rewrite sent_sending.
        apply Forall_app. split; [exact IH|]. constructor; [reflexivity|constructor].
Qed.

(** *** The boot *)

Lemma wifi_wait_run n s :
  wifi_wait n s = Done tt s (concat (replicate n [EDelay 500; ESerial "."])).
Proof.
  induction n as [|n IH]; [reflexivity|].
  cbn [wifi_wait]. unfold delay, Serial_print.
  erewrite bind_done by reflexivity.
  erewrite bind_done by reflexivity.
  rewrite IH. reflexivity.
Qed.

Lemma connect_wifi_run env s : connect_wifi env s = Done tt s (connect_calls env).
Proof.
  unfold connect_wifi, connect_calls, call, Serial_print.
  do 4 (erewrite bind_done by reflexivity).
  erewrite bind_done by apply wifi_wait_run.
  destruct s; reflexivity.
Qed.

Lemma refreshed_only_cal q s : refreshed q s = upd_cal (fun _ => cal (refreshed q s)) s.
Proof. destruct q, s; reflexivity. Qed.

Lemma polled_only_cal clk k n s : polled clk k n s = upd_cal (fun _ => cal (polled clk k n s)) s.
Proof.
  revert k s. induction n as [|n IH]; intros k s; cbn [polled].
  - destruct s; reflexivity.
  - etransitivity; [apply IH|].
    generalize (cal (polled clk (S k) n (refreshed (clk k) s))). intros c.
    destruct (clk k), s; reflexivity.
Qed.

(** On a [tm_year] in the range of [int], the stored year is zero for the
    year 0 and for no other: [tm_year] counts from 1900. *)
Lemma year0_of_tm t :
  CInt.in_range (tm_year t) -> (year0 (Some t) <-> tm_year t = -1900).
Proof.
  unfold year0, CInt.in_range, CInt.add, CInt.wrap. intros Hr.
  split; intros Hy; [|rewrite Hy; reflexivity].
  Z.div_mod_to_equations. lia.
Qed.

Lemma year0_refreshed q s : year0 q -> yeart (cal s) = 0 -> yeart (cal (refreshed q s)) = 0.
Proof. destruct q as [t|], s; simpl; auto. Qed.

Lemma retry_step fuel clk k s :
  retry_time (S fuel) clk k s =
  prepend [EGetLocalTime (clk k)]
    (if yeart (cal (refreshed (clk k) s)) =? 0
     then retry_time fuel clk (S k) (refreshed (clk k) s)
     else Done tt (refreshed (clk k) s) []).
Proof.
  cbn [retry_time]. erewrite bind_done by apply printLocalTime_refreshed.
  f_equal. unfold mbind, M_bind, gets. rewrite prepend_nil.
  destruct (yeart (cal (refreshed (clk k) s)) =? 0); reflexivity.
Qed.

Lemma polls_S clk k n : polls clk k (S n) = EGetLocalTime (clk k) :: polls clk (S k) n.
Proof. reflexivity. Qed.

(** As long as the clock leaves the year at zero, the loop goes on. *)
Lemma retry_spins clk fuel k s :
  yeart (cal s) = 0 ->
  (forall i, (k <= i < k + fuel)%nat -> year0 (clk i)) ->
  retry_time fuel clk k s = Stopped Spin (polled clk k fuel s) (polls clk k fuel).
Proof.
  revert k s. induction fuel as [|fuel IH]; intros k s Hy Hclk; [reflexivity|].
  rewrite retry_step.
  assert (Hy' : yeart (cal (refreshed (clk k) s)) = 0)
    by (apply year0_refreshed; [apply Hclk; lia|exact Hy]).
  rewrite Hy'. cbn [Z.eqb]. rewrite IH; [reflexivity|exact Hy'|].
  intros i Hi. apply Hclk. lia.
Qed.

(** The first answer with another year ends the loop, with the calendar
    fields of that answer. *)
Lemma retry_exits clk N fuel k s t :
  yeart (cal s) = 0 ->
  (forall i, (k <= i < k + N)%nat -> year0 (clk i)) ->
  clk (k + N)%nat = Some t ->
  CInt.add (tm_year t) 1900 <> 0 ->
  (N < fuel)%nat ->
  retry_time fuel clk k s = Done tt (upd_cal (fun _ => calendar_of t) s) (polls clk k (S N)).
Proof.
  revert fuel k s. induction N as [|N IH]; intros fuel k s Hy Hclk Ht Hvalid Hfuel;
    (destruct fuel as [|fuel]; [lia|]); rewrite retry_step, polls_S.
  - rewrite Nat.add_0_r in Ht. rewrite Ht. cbn [refreshed].
    replace (yeart (cal (upd_cal (fun _ => calendar_of t) s))) with (CInt.add (tm_year t) 1900)
      by (destruct s; reflexivity).
    destruct (Z.eqb_spec (CInt.add (tm_year t) 1900) 0) as [?|_]; [contradiction|].
    reflexivity.
  - assert (Hy' : yeart (cal (refreshed (clk k) s)) = 0)
      by (apply year0_refreshed; [apply Hclk; lia|exact Hy]).
    rewrite Hy'. cbn [Z.eqb].
    rewrite (IH fuel (S k) (refreshed (clk k) s) Hy'); [| |rewrite <- Ht; f_equal; lia|exact Hvalid|lia].
    + rewrite (refreshed_only_cal (clk k) s). destruct s; reflexivity.
    + intros i Hi. apply Hclk. lia.
Qed.

Lemma setup_spinning fuel env s :
  yeart (cal s) = 0 ->
  (forall i, (i < fuel)%nat -> year0 (clock env i)) ->
  let s' := polled (clock env) 0 fuel s in
  setup fuel env s = Stopped Spin s' (connect_calls env ++ polls (clock env) 0 fuel)
  /\ bufs s' = bufs s /\ tasks s' = tasks s /\ sd s' = sd s /\ sent s' = sent s.
Proof.
  intros Hy Hclk s'. split.
  - unfold setup. erewrite bind_done by apply connect_wifi_run.
    erewrite bind_stopped; [reflexivity|].
    apply retry_spins; [exact Hy|]. intros i Hi. apply Hclk. lia.
  - subst s'. rewrite polled_only_cal. destruct s; repeat split; reflexivity.
Qed.

(** C4. From power-on: while the clock leaves the year at zero, [setup] is
    in the retry loop, has named no log file and created no task; when the
    first [N] answers leave the year at zero and answer [N + 1] carries
    another year, [setup] makes exactly [N + 1] clock queries and goes on
    from there; when every answer leaves the year at zero, [setup] is in the
    loop after any number of queries. *)
Theorem boot_waits_for_valid_year env chip card air :
  let s0 := power_on chip card air in
  (forall N t,
     (forall i, (i < N)%nat -> year0 (clock env i)) ->
     clock env N = Some t ->
     CInt.add (tm_year t) 1900 <> 0 ->
     (forall fuel, (fuel <= N)%nat ->
        exists s', setup fuel env s0
                     = Stopped Spin s' (connect_calls env ++ polls (clock env) 0 fuel)
                   /\ bufs s' = bufs s0 /\ tasks s' = tasks s0
                   /\ sd s' = sd s0 /\ sent s' = sent s0)
     /\ (forall fuel, (N < fuel)%nat ->
        setup fuel env s0
          = prepend (connect_calls env ++ polls (clock env) 0 (S N))
                    (setup_run env (upd_cal (fun _ => calendar_of t) s0))))
  /\ ((forall i, year0 (clock env i)) ->
      forall fuel,
        exists s', setup fuel env s0
                     = Stopped Spin s' (connect_calls env ++ polls (clock env) 0 fuel)
                   /\ bufs s' = bufs s0 /\ tasks s' = tasks s0
                   /\ sd s' = sd s0 /\ sent s' = sent s0).
Proof.
  intros s0. assert (Hy0 : yeart (cal s0) = 0) by reflexivity.
  split.
  - intros N t Hzero Ht Hvalid. split.
    + intros fuel Hfuel. eexists. apply setup_spinning; [exact Hy0|].
      intros i Hi. apply Hzero. lia.
    + intros fuel Hfuel. unfold setup.
      erewrite bind_done by apply connect_wifi_run.
      erewrite bind_done.
      2:{ apply (retry_exits (clock env) N fuel 0%nat s0 t); auto.
          intros i Hi. apply Hzero. lia. }
      rewrite prepend_prepend. reflexivity.
  - intros Hzero fuel. eexists. apply setup_spinning; [exact Hy0|].
    intros i _. apply Hzero.
Qed.

End Proofs.

(** ** Further properties of [main.c] *)

Section Further.

Context `{Numbers}.

(** *** Composition of computations *)

Section Within.

Variable R : state -> state -> Prop.

Hypothesis R_refl : forall s, R s s.

Hypothesis R_trans : forall s1 s2 s3, R s1 s2 -> R s2 s3 -> R s1 s3.

Lemma within_bind {A B} (m : M A) (f : A -> M B) :
  within R m -> (forall a, within R (f a)) -> within R (m ≫= f).
Proof.
  intros Hm Hf s. unfold mbind, M_bind.
  specialize (Hm s). destruct (m s) as [a s1 tr1|why s1 tr1]; cbn [final_state] in *.
  - rewrite final_state_prepend. eapply R_trans; [exact Hm|apply Hf].
  - exact Hm.
Qed.

Lemma within_ret {A} (a : A) : within R (mret a).
Proof. intros s. apply R_refl. Qed.

Lemma within_emit e : within R (emit e).
Proof. intros s. apply R_refl. Qed.

Lemma within_gets {A} (f : state -> A) : within R (gets f).
Proof. intros s. apply R_refl. Qed.

Lemma within_stop why : within R (stop_with why).
Proof. intros s. apply R_refl. Qed.

Lemma within_when cond body : within R body -> within R (when_ cond body).
Proof. intros Hb s. unfold when_. destruct (cond s); [apply Hb|apply R_refl]. Qed.

Lemma within_modify f : (forall s, R s (f s)) -> within R (modify f).
Proof. intros Hf s. apply Hf. Qed.

End Within.

Lemma same_refl {V} (view : state -> V) s : same view s s.
Proof. reflexivity. Qed.

Lemma same_trans {V} (view : state -> V) s1 s2 s3 :
  same view s1 s2 -> same view s2 s3 -> same view s1 s3.
Proof. unfold same. congruence. Qed.

End Further.

(** Walks through a computation made of binds, tests and the primitives of
    the monad; [leaf] closes the computations that have a lemma of their
    own, [side] proves that a state update stays within the relation. *)
Ltac stays leaf Hrefl Htrans side :=
  repeat first
    [ leaf
    | apply (within_ret _ Hrefl) | apply (within_emit _ Hrefl) | apply (within_gets _ Hrefl)
    | apply (within_stop _ Hrefl)
    | apply within_modify; side
    | apply (within_when _ Hrefl)
    | apply (within_bind _ Htrans); [|intros ?]
    | match goal with
      | |- within _ (if ?b then _ else _) => destruct b
      | |- within _ (match ?o with Some _ => _ | None => _ end) => destruct o
      end ].

(** The same for a part of the state that the updates leave alone. *)
Ltac framed :=
  match goal with
  | |- within (same ?view) _ =>
      stays fail (same_refl view) (same_trans view) ltac:(intros []; reflexivity)
  end.

Section Frames.

Context `{Numbers}.

(** *** What each task leaves alone *)

(** X1. A pass of [Task2code] changes the calendar fields, the scheduler
    and the power mode of the sensor and nothing else: the four text
    buffers, [data], [myData], the card, the radio, the packets sent and the
    last reading of the sensor are what they were, wherever the pass
    stops. *)
Theorem Task2code_changes_only_lifecycle q s :
  let s' := final_state (Task2code q s) in
  bufs s' = bufs s /\ data s' = data s /\ myData s' = myData s /\ sd s' = sd s
  /\ wifi s' = wifi s /\ sent s' = sent s
  /\ adxl_x (myAdxl s') = adxl_x (myAdxl s) /\ adxl_y (myAdxl s') = adxl_y (myAdxl s)
  /\ adxl_z (myAdxl s') = adxl_z (myAdxl s).
Proof.
  intros s'.
  assert (Hw : within (same (fun u => (bufs u, data u, myData u, sd u, wifi u, sent u,
                                       adxl_x (myAdxl u), adxl_y (myAdxl u), adxl_z (myAdxl u))))
                      (Task2code q)).
  { unfold Task2code, printLocalTime, getLocalTime, scheduled_suspend, scheduled_resume,
      scheduled_restart, vTaskSuspend, vTaskResume, adxl_standby, adxl_measureModeOn,
      Serial_println, ESP_restart, vTaskDelayUntil.
    framed. }
  specialize (Hw s). unfold same in Hw. fold s' in Hw.
  injection Hw as -> -> -> -> -> -> -> -> ->. repeat split.
Qed.

(** X2. With a date that fits [Date], a pass of [Task1code] leaves alone
    the calendar fields, the scheduler, the power mode of the sensor,
    [myData], the radio, the packets sent and the name of the log file in
    [cap]; on the card it touches no file but the one named by [cap].  The
    arrays [header] and [Date], which lie behind [gpsDate], are not in this
    list: the record runs on into them. *)
Theorem Task1code_touches_only_its_log env s :
  fits (date_text (cal s)) = true ->
  let s' := final_state (Task1code env s) in
  cal s' = cal s /\ tasks s' = tasks s /\ mode (myAdxl s') = mode (myAdxl s)
  /\ myData s' = myData s /\ wifi s' = wifi s /\ sent s' = sent s
  /\ cap (bufs s') = cap (bufs s)
  /\ forall name, name <> cap (bufs s) -> sd s' !! name = sd s !! name.
Proof.
  intros Hfit s'.
  assert (Hcap : cap (bufs s') = cap (bufs s)) by (apply cap_after_sample; exact Hfit).
  subst s'. destruct (ready env) eqn:Hr.
  - pose proof (Task1code_ready env s Hr) as Hrun. cbv zeta in Hrun.
    rewrite (cap_sampled env s Hfit) in Hrun. rewrite Hrun in *.
    set (name := cap (bufs s)) in *.
    assert (Hopen : forall other, other <> name -> opened name (sd s) !! other = sd s !! other).
    { intros other Hne. unfold opened. destruct (sd s !! name); [reflexivity|].
      apply lookup_insert_ne. congruence. }
    destruct (open_ok env), (write_ok env); cbn [final_state] in *;
      rewrite ?sd_upd_sd, ?sd_sampled;
      (do 6 (split; [reflexivity|])); (split; [exact Hcap|]);
      intros other Hne; try (apply Hopen; exact Hne); try reflexivity.
    unfold appended. rewrite lookup_insert_ne by congruence. apply Hopen. exact Hne.
  - rewrite (Task1code_not_ready env s Hr). repeat split; reflexivity.
Qed.

(** X3. A pass of [Task3code] reads [data] and does not write it; it
    leaves alone the calendar fields, the text buffers, the sensor, the
    scheduler and the card, and it ends with the radio off and [myData]
    holding the packet it sent. *)
Theorem Task3code_reads_the_buffer s :
  let s' := final_state (Task3code s) in
  data s' = data s /\ cal s' = cal s /\ bufs s' = bufs s /\ myAdxl s' = myAdxl s
  /\ tasks s' = tasks s /\ sd s' = sd s
  /\ wifi s' = WIFI_OFF /\ myData s' = packet s /\ sent s' = sent s ++ [packet s].
Proof. intros s'. subst s'. rewrite Task3code_run. destruct s; repeat split. Qed.

Lemma task_pass_keeps_cap s s' : task_pass s s' -> cap (bufs s') = cap (bufs s).
Proof.
  intros [env u Hfit|q u|u].
  - apply cap_after_sample. exact Hfit.
  - pose proof (Task2code_run q u) as Hrun. cbv zeta in Hrun. rewrite Hrun.
    destruct (bool_decide (triple (cal (refreshed q u)) ∈ restart_at)),
      (bool_decide (triple (cal (refreshed q u)) = suspend_at)),
      (bool_decide (triple (cal (refreshed q u)) = resume_at)); destruct q, u; reflexivity.
  - rewrite Task3code_run. destruct u; reflexivity.
Qed.

(** X4. Between two boots the log file is one: no pass of a task, in any
    number and order, changes the name in [cap], whatever dates the clock
    goes through, as long as each date, as line 111 formats it, fits the
    array [Date] that lies in front of [cap]. *)
Theorem log_name_fixed_between_boots s s' :
  rtc task_pass s s' -> cap (bufs s') = cap (bufs s).
Proof.
  induction 1 as [s|s u s' Hstep _ IH]; [reflexivity|].
  rewrite IH. apply task_pass_keeps_cap. exact Hstep.
Qed.

End Frames.

Section Lifecycle.

Context `{Numbers}.

(** *** [Task2code] over several passes *)

Lemma Task2code_final q s :
  final_state (Task2code q s) =
  let s1 := refreshed q s in
  let s2 := if bool_decide (triple (cal s1) = suspend_at) then suspended s1 else s1 in
  if bool_decide (triple (cal s1) = resume_at) then resumed s2 else s2.
Proof.
  pose proof (Task2code_run q s) as Hrun. cbv zeta in Hrun. rewrite Hrun.
  destruct (bool_decide (triple (cal (refreshed q s)) ∈ restart_at)); reflexivity.
Qed.

Lemma refreshed_again q s u : cal u = cal (refreshed q s) -> refreshed q u = u.
Proof.
  destruct q as [t|]; [|reflexivity].
  destruct s, u; cbn. intros ->. reflexivity.
Qed.

Lemma suspended_twice u : suspended (suspended u) = suspended u.
Proof. destruct u as [? ? ? ? ? [[] ? []] ? ? ?]; reflexivity. Qed.

Lemma resumed_twice u : resumed (resumed u) = resumed u.
Proof. destruct u as [? ? ? ? ? [[] ? []] ? ? ?]; reflexivity. Qed.

(** X5. The tests of [Task2code] hold for a whole second and the loop
    passes many times in it: a second pass on the same answer of the clock
    leaves the state the first pass left. *)
Theorem Task2code_twice_is_once q s :
  final_state (Task2code q (final_state (Task2code q s))) = final_state (Task2code q s).
Proof.
  rewrite (Task2code_final q (final_state (Task2code q s))).
  rewrite (Task2code_final q s). cbv zeta.
  set (s1 := refreshed q s).
  destruct (bool_decide_reflect (triple (cal s1) = suspend_at)) as [Hsus|Hsus];
    destruct (bool_decide_reflect (triple (cal s1) = resume_at)) as [Hres|Hres].
  - rewrite Hsus in Hres. discriminate.
  - rewrite (refreshed_again q s (suspended s1)) by apply cal_suspended.
    rewrite cal_suspended.
    rewrite (bool_decide_eq_true_2 _ Hsus), (bool_decide_eq_false_2 _ Hres).
    apply suspended_twice.
  - rewrite (refreshed_again q s (resumed s1)) by apply cal_resumed.
    rewrite cal_resumed.
    rewrite (bool_decide_eq_false_2 _ Hsus), (bool_decide_eq_true_2 _ Hres).
    apply resumed_twice.
  - rewrite (refreshed_again q s s1) by reflexivity.
    rewrite (bool_decide_eq_false_2 _ Hsus), (bool_decide_eq_false_2 _ Hres).
    reflexivity.
Qed.

(** X6. The four times of day differ, so a pass of [Task2code] runs one of
    its three blocks at most: its calls are the clock query and then either
    the delay alone, or the suspend calls and the delay, or the resume calls
    and the delay, or the restart alone. *)
Theorem Task2code_runs_one_block q s :
  let tr := trace_of (Task2code q s) in
  tr = [EGetLocalTime q; EDelayUntil 1]
  \/ tr = [EGetLocalTime q] ++ suspend_calls ++ [EDelayUntil 1]
  \/ tr = [EGetLocalTime q] ++ resume_calls ++ [EDelayUntil 1]
  \/ tr = [EGetLocalTime q; ERestart].
Proof.
  intros tr. subst tr.
  pose proof (Task2code_run q s) as Hrun. cbv zeta in Hrun. rewrite Hrun.
  set (c := cal (refreshed q s)).
  destruct (bool_decide_reflect (triple c = suspend_at)) as [Hsus|Hsus];
    destruct (bool_decide_reflect (triple c = resume_at)) as [Hres|Hres];
    destruct (bool_decide_reflect (triple c ∈ restart_at)) as [Hrst|Hrst];
    unfold suspend_at, resume_at, restart_at in *;
    try (rewrite Hsus in Hres; discriminate);
    try (exfalso; rewrite !elem_of_cons, elem_of_nil in Hrst;
         destruct Hrst as [Hrst|[Hrst|[]]]; congruence);
    unfold suspend_calls, resume_calls; cbn.
  - right; left; reflexivity.
  - right; right; left; reflexivity.
  - right; right; right; reflexivity.
  - left; reflexivity.
Qed.

(** X7. On a device whose tasks run and whose sensor measures, a pass at
    the suspend time followed by a pass at the resume time gives back the
    scheduler and the power mode of the sensor; in between Task1 and Task3
    are suspended and the sensor is in standby. *)
Theorem suspend_then_resume_restores t1 t2 s :
  tasks s = all_running ->
  mode (myAdxl s) = Measuring ->
  triple (calendar_of t1) = suspend_at ->
  triple (calendar_of t2) = resume_at ->
  let s1 := final_state (Task2code (Some t1) s) in
  let s2 := final_state (Task2code (Some t2) s1) in
  tasks s1 = mk_scheduler Suspended Running Suspended /\ mode (myAdxl s1) = Standby
  /\ tasks s2 = tasks s /\ mode (myAdxl s2) = mode (myAdxl s).
Proof.
  intros Ht Hm H1 H2 s1 s2.
  assert (Hc : forall t u, cal (refreshed (Some t) u) = calendar_of t)
    by (intros t []; reflexivity).
  assert (Hs1 : s1 = suspended (refreshed (Some t1) s)).
  { subst s1. rewrite Task2code_final. cbv zeta. rewrite Hc.
    rewrite (bool_decide_eq_true_2 _ H1).
    rewrite bool_decide_eq_false_2 by (rewrite H1; discriminate). reflexivity. }
  assert (Hs2 : s2 = resumed (refreshed (Some t2) s1)).
  { subst s2. rewrite Task2code_final. cbv zeta. rewrite Hc.
    rewrite (bool_decide_eq_true_2 _ H2).
    rewrite bool_decide_eq_false_2 by (rewrite H2; discriminate). reflexivity. }
  rewrite Hs2, Hs1. destruct s as [? ? ? ? [] ? ? ? ?]. cbn in Ht, Hm. subst.
  repeat split.
Qed.

End Lifecycle.

Section Card.

Context `{Numbers}.

(** *** The card *)

Lemma append_assoc (a b c : string) : (a +:+ b) +:+ c = a +:+ (b +:+ c).
Proof.
  induction a as [|ch a IH]; [reflexivity|].
  change (String ch ((a +:+ b) +:+ c) = String ch (a +:+ (b +:+ c))).
  rewrite IH. reflexivity.
Qed.

Lemma card_grows_refl files : card_grows files files.
Proof. intros name. split; [auto|]. exists EmptyString. symmetry. apply append_empty_r. Qed.

Lemma card_grows_trans f1 f2 f3 : card_grows f1 f2 -> card_grows f2 f3 -> card_grows f1 f3.
Proof.
  intros H12 H23 name. destruct (H12 name) as [Hk1 [x1 Hx1]], (H23 name) as [Hk2 [x2 Hx2]].
  split; [auto|]. exists (x1 +:+ x2). rewrite Hx2, Hx1. apply append_assoc.
Qed.

Lemma card_grows_created name files :
  files !! name = None -> card_grows files (<[name := EmptyString]> files).
Proof.
  intros Hnone other. destruct (decide (name = other)) as [<-|Hne].
  - split; [rewrite Hnone; intros [? ?]; discriminate|].
    exists EmptyString. unfold content. rewrite lookup_insert_eq, Hnone. reflexivity.
  - unfold content. rewrite lookup_insert_ne by exact Hne.
    split; [auto|]. exists EmptyString. symmetry. apply append_empty_r.
Qed.

Lemma card_grows_opened name files : card_grows files (opened name files).
Proof.
  unfold opened. destruct (files !! name) eqn:Hl; [apply card_grows_refl|].
  apply card_grows_created. exact Hl.
Qed.

Lemma card_grows_appended name text files : card_grows files (appended name text files).
Proof.
  intros other. unfold appended, content. destruct (decide (name = other)) as [<-|Hne].
  - rewrite lookup_insert_eq. split; [eauto|]. exists text. reflexivity.
  - rewrite lookup_insert_ne by exact Hne.
    split; [auto|]. exists EmptyString. symmetry. apply append_empty_r.
Qed.

Lemma grows_refl s : grows s s.
Proof. apply card_grows_refl. Qed.

Lemma grows_trans s1 s2 s3 : grows s1 s2 -> grows s2 s3 -> grows s1 s3.
Proof. apply card_grows_trans. Qed.

Lemma file_open_excl_run name ok s :
  file_open_excl name ok s =
  let can := ok && negb (bool_decide (is_Some (sd s !! name))) in
  Done can (if can then upd_sd (fun files => <[name := EmptyString]> files) s else s)
       [EOpen name can].
Proof.
  cbv [file_open_excl mbind M_bind gets emit modify mret M_ret prepend app].
  destruct (ok && negb (bool_decide (is_Some (sd s !! name)))); reflexivity.
Qed.

Lemma grows_file_open_excl name ok : within grows (file_open_excl name ok).
Proof.
  intros s. rewrite file_open_excl_run. cbv zeta.
  destruct ok; cbn [andb]; [|apply grows_refl].
  destruct (bool_decide_reflect (is_Some (sd s !! name))) as [Hsome|Hnone];
    cbn [negb final_state]; [apply grows_refl|].
  unfold grows. destruct s; cbn in *. apply card_grows_created.
  apply eq_None_not_Some. exact Hnone.
Qed.

Lemma grows_ofstream_app name ok : within grows (ofstream_app name ok).
Proof.
  intros s. destruct ok; [|apply grows_refl].
  unfold grows. destruct s; cbn. apply card_grows_opened.
Qed.

Lemma grows_ofstream_put sdout text ok : within grows (ofstream_put sdout text ok).
Proof.
  intros s. destruct sdout as [name|], ok; try apply grows_refl.
  unfold grows. destruct s; cbn. apply card_grows_appended.
Qed.

Lemma grows_Task1code env : within grows (Task1code env).
Proof.
  intros s. destruct (ready env) eqn:Hr.
  - pose proof (Task1code_ready env s Hr) as Hrun. cbv zeta in Hrun. rewrite Hrun.
    unfold grows.
    destruct (open_ok env), (write_ok env); destruct s; cbn.
    + eapply card_grows_trans; [apply card_grows_opened|apply card_grows_appended].
    + apply card_grows_opened.
    + apply card_grows_refl.
    + apply card_grows_refl.
  - rewrite (Task1code_not_ready env s Hr). apply grows_refl.
Qed.

Lemma grows_setup fuel env : within grows (setup fuel env).
Proof.
  assert (Hretry : forall k, within grows (retry_time fuel (clock env) k)).
  { induction fuel as [|f IH]; intros k; cbn [retry_time].
    - apply (within_stop _ grows_refl).
    - unfold printLocalTime, getLocalTime.
      stays ltac:(apply IH) grows_refl grows_trans ltac:(intros []; apply card_grows_refl). }
  assert (Hwait : forall n, within grows (wifi_wait n)).
  { induction n as [|n IH]; cbn [wifi_wait]; unfold delay, Serial_print;
      stays ltac:(exact IH) grows_refl grows_trans ltac:(intros []; apply card_grows_refl). }
  unfold setup, setup_run, connect_wifi, name_log_file, init_esp_now, init_adxl313, init_sd,
    test_send, launch_tasks, call, Serial_print, Serial_println, WiFi_mode, adxl_standby,
    adxl_measureModeOn, sd_exists, error, file_print, file_println, file_close,
    esp_now_send, xTaskCreatePinnedToCore.
  stays ltac:(first [apply Hwait | apply Hretry | apply grows_file_open_excl
                    | apply grows_ofstream_put
                    | unfold ofstream_close; apply (within_emit _ grows_refl)])
        grows_refl grows_trans ltac:(intros []; apply card_grows_refl).
Qed.

(** X8. The card is only ever added to: a boot, or a pass of any of the
    three tasks, removes no file and leaves in every file what it held, as
    the beginning of what it holds. *)
Theorem card_is_append_only s s' : move s s' -> grows s s'.
Proof.
  intros [fuel env u|env u _|q u _|u _].
  - apply (grows_trans u (reboot u)); [|apply grows_setup].
    unfold grows. destruct u; apply card_grows_refl.
  - apply grows_Task1code.
  - unfold grows.
    replace (sd (final_state (Task2code q u))) with (sd u); [apply card_grows_refl|].
    rewrite Task2code_final. cbv zeta.
    destruct (bool_decide (triple (cal (refreshed q u)) = suspend_at)),
      (bool_decide (triple (cal (refreshed q u)) = resume_at)); destruct q, u; reflexivity.
  - unfold grows. rewrite Task3code_run. destruct u; apply card_grows_refl.
Qed.

End Card.

Section Log.

Context `{Numbers}.

(** *** The log *)

Lemma Task1code_adds_its_record env s :
  fits (date_text (cal s)) = true ->
  (ready env = true -> open_ok env = true) ->
  exists s' tr,
    Task1code env s = Done tt s' tr
    /\ cal s' = cal s /\ cap (bufs s') = cap (bufs s)
    /\ content (cap (bufs s)) (sd s')
       = content (cap (bufs s)) (sd s) +:+ record_of (cal s) env.
Proof.
  intros Hfit Hopen. unfold record_of. destruct (ready env) eqn:Hr.
  - pose proof (Task1code_ready env s Hr) as Hrun. cbv zeta in Hrun.
    rewrite (Hopen eq_refl) in Hrun. eexists _, _. split; [exact Hrun|].
    rewrite gpsDate_sampled, bufs_upd_sd, sd_upd_sd, sd_sampled, (cap_sampled env s Hfit).
    split; [reflexivity|]. split; [reflexivity|].
    destruct (write_ok env); cbn [andb].
    + rewrite content_appended, content_opened. reflexivity.
    + rewrite content_opened. symmetry. apply append_empty_r.
  - eexists _, _. split; [apply (Task1code_not_ready env s Hr)|].
    repeat split. cbn [andb]. symmetry. apply append_empty_r.
Qed.

(** X9. Over any number of passes of [Task1code] in which every stream
    opens, with the calendar fields as they are and a date that fits [Date]:
    the loop goes on, and the log file gains exactly the records of the
    passes that found data ready and whose write went through, in the order
    of the passes; a pass without data and a pass whose write failed add
    nothing. *)
Theorem log_gains_one_record_per_sample envs s :
  fits (date_text (cal s)) = true ->
  Forall (fun env => ready env = true -> open_ok env = true) envs ->
  exists s' tr,
    Task1code_loop envs s = Done tt s' tr
    /\ cal s' = cal s /\ cap (bufs s') = cap (bufs s)
    /\ content (cap (bufs s)) (sd s')
       = content (cap (bufs s)) (sd s) +:+ records (cal s) envs.
Proof.
  intros Hfit Hall. revert s Hfit. induction Hall as [|env rest Henv _ IH]; intros s Hfit.
  - exists s, []. repeat split. symmetry. apply append_empty_r.
  - destruct (Task1code_adds_its_record env s Hfit Henv)
      as (s1 & tr1 & Hrun & Hcal & Hcap & Hlog).
    destruct (IH s1) as (s2 & tr2 & Hrest & Hcal2 & Hcap2 & Hlog2); [rewrite Hcal; exact Hfit|].
    exists s2, (tr1 ++ tr2). split.
    + cbn [Task1code_loop]. erewrite bind_done by exact Hrun. rewrite Hrest. reflexivity.
    + split; [congruence|]. split; [congruence|].
      rewrite Hcap, Hcal in Hlog2. rewrite Hlog2, Hlog. cbn [records]. apply append_assoc.
Qed.

Lemma sprintf_header :
  sprintf "%s,%s,%s,%s," [AStr "Date"; AStr "X"; AStr "Y"; AStr "Z"] = header_text.
Proof. reflexivity. Qed.

Lemma sprintf_cap c :
  sprintf "/test%d%d%d.csv" [AInt (yeart c); AInt (montht c); AInt (dayt c)] = log_name c.
Proof. reflexivity. Qed.

Lemma cap_after_header s :
  cap (bufs (upd_bufs (set_header header_text) s)) = cap (bufs s).
Proof. rewrite bufs_upd_bufs. apply cap_set_header. cbn. lia. Qed.

Lemma name_log_file_run s :
  name_log_file s
  = Done tt (set_wifi WIFI_OFF (upd_bufs (set_cap (log_name (cal s))) s))
      [ECall "WiFi.disconnect" true; EWifiMode WIFI_OFF].
Proof. destruct s; reflexivity. Qed.

Lemma cap_named s : cap (bufs (final_state (name_log_file s))) = log_name (cal s).
Proof.
  rewrite name_log_file_run. cbn [final_state].
  change (bufs (set_wifi WIFI_OFF (upd_bufs (set_cap (log_name (cal s))) s)))
    with (set_cap (log_name (cal s)) (bufs s)).
  apply cap_set_cap, no_nul_log_name.
Qed.

Lemma init_sd_present env s :
  sd_ok env = true -> is_Some (sd s !! cap (bufs s)) ->
  init_sd env s = Done tt s [ECall "sd.begin" true; EExists (cap (bufs s)) true].
Proof.
  intros Hok Hsome.
  cbv [init_sd call sd_exists mbind M_bind gets emit modify mret M_ret prepend app].
  rewrite Hok. cbv beta iota delta [negb].
  rewrite (bool_decide_eq_true_2 _ Hsome). reflexivity.
Qed.

Lemma init_sd_absent env s :
  sd_ok env = true -> sd s !! cap (bufs s) = None ->
  let name := cap (bufs s) in
  init_sd env s =
  if file_ok env then
    Done tt
      (upd_sd (fun files =>
                 let files1 := <[name := EmptyString]> files in
                 let files2 := if header_ok env then appended name header_text files1
                               else files1 in
                 if header_ok env then appended name CRLF files2 else files2)
         (upd_bufs (set_header header_text) s))
      [ECall "sd.begin" true; EExists name false; EOpen name true;
       EWrite name header_text (header_ok env); EWrite name CRLF (header_ok env); EClose name]
  else
    Stopped Halt s
      [ECall "sd.begin" true; EExists name false; EOpen name false; EErrorHalt "!file.open"].
Proof.
  intros Hok Hnone name. subst name.
  assert (Hdec : bool_decide (is_Some (sd s !! cap (bufs s))) = false).
  { apply bool_decide_eq_false_2. rewrite Hnone. intros [? ?]. discriminate. }
  cbv [init_sd call sd_exists file_open_excl file_print file_println file_close ofstream_put
       ofstream_close error stop_with mbind M_bind gets emit modify mret M_ret prepend app].
  rewrite Hok.
  repeat (progress (cbv beta iota delta [negb andb]; rewrite ?Hdec)).
  destruct (file_ok env); cbv beta iota delta [negb andb]; [|reflexivity].
  rewrite sprintf_header, bufs_upd_bufs, (header_set_header header_text _ eq_refl).
  destruct (header_ok env); destruct s; reflexivity.
Qed.

(** X10. [// Init SD] with a card that mounts: when the log file is there,
    the block writes nothing and changes nothing; when it is not there and
    can be created and written, the block leaves it holding the header and
    an end of line (CR LF) and touches no other file, and a later run of the
    block on that card writes nothing more; when it cannot be created, the
    block halts with "!file.open" and the card is as it was. *)
Theorem header_is_written_once env s :
  sd_ok env = true ->
  (is_Some (sd s !! cap (bufs s)) ->
     init_sd env s = Done tt s [ECall "sd.begin" true; EExists (cap (bufs s)) true])
  /\ (sd s !! cap (bufs s) = None -> file_ok env = true -> header_ok env = true ->
      exists s' tr,
        init_sd env s = Done tt s' tr
        /\ sd s' !! cap (bufs s) = Some (header_text +:+ CRLF)
        /\ (forall name, name <> cap (bufs s) -> sd s' !! name = sd s !! name)
        /\ cap (bufs s') = cap (bufs s)
        /\ forall env', sd_ok env' = true -> sd (final_state (init_sd env' s')) = sd s')
  /\ (sd s !! cap (bufs s) = None -> file_ok env = false ->
      exists tr, init_sd env s = Stopped Halt s tr
                 /\ List.filter is_halt tr = [EErrorHalt "!file.open"]).
Proof.
  intros Hok. split; [apply init_sd_present; exact Hok|]. split.
  - intros Hnone Hfile Hhead.
    pose proof (init_sd_absent env s Hok Hnone) as Hrun. cbv zeta in Hrun.
    rewrite Hfile, Hhead in Hrun. eexists _, _. split; [exact Hrun|].
    assert (Hfile' : sd (upd_sd (fun files =>
               appended (cap (bufs s)) CRLF
                 (appended (cap (bufs s)) header_text (<[cap (bufs s) := EmptyString]> files)))
               (upd_bufs (set_header header_text) s)) !! cap (bufs s)
             = Some (header_text +:+ CRLF)).
    { destruct s; cbn. unfold appended. rewrite !lookup_insert_eq. reflexivity. }
    split; [exact Hfile'|]. split; [|split].
    + intros name Hne. destruct s; cbn in *. unfold appended.
      rewrite !lookup_insert_ne by congruence. reflexivity.
    + rewrite bufs_upd_sd. apply cap_after_header.
    + intros env' Hok'. rewrite init_sd_present; [reflexivity|exact Hok'|].
      rewrite bufs_upd_sd, cap_after_header, Hfile'. eauto.
  - intros Hnone Hfile.
    pose proof (init_sd_absent env s Hok Hnone) as Hrun. cbv zeta in Hrun.
    rewrite Hfile in Hrun. eexists. split; [exact Hrun|reflexivity].
Qed.

(** C7. The text that a pass of [Task1code] gives to the stream is the
    record of line 112: year, month and day between slashes, a space, hour,
    minute and second between colons, then the three axis values as [int],
    each behind a comma, a last comma and a newline; it is the only text the
    pass writes, and a write that goes through adds it to the end of the log
    file.  [Task2code] and [Task3code] write nothing.  The header, the text
    [Date,X,Y,Z,] and an end of line, is written by [// Init SD] in [setup]
    when the log file is not on the card, into the file it has just created,
    and not when the file is there. *)
Theorem log_holds_header_and_records env benv q s :
  let record := log_line (cal s) (accel_to_int (rx env)) (accel_to_int (ry env))
                         (accel_to_int (rz env)) in
  let pass := Task1code env s in
  let name := cap (bufs (final_state pass)) in
  let boot := init_sd benv s in
  date_text (cal s)
    = Fmt.fmt_d (yeart (cal s)) +:+ "/" +:+ Fmt.fmt_d (montht (cal s)) +:+ "/"
      +:+ Fmt.fmt_d (dayt (cal s)) +:+ " " +:+ Fmt.fmt_d (hourt (cal s)) +:+ ":"
      +:+ Fmt.fmt_d (mint (cal s)) +:+ ":" +:+ Fmt.fmt_d (sect (cal s))
  /\ record
      = date_text (cal s) +:+ "," +:+ Fmt.fmt_d (accel_to_int (rx env)) +:+ ","
        +:+ Fmt.fmt_d (accel_to_int (ry env)) +:+ "," +:+ Fmt.fmt_d (accel_to_int (rz env))
        +:+ "," +:+ LF
  /\ (ready env = true -> open_ok env = true ->
        List.filter is_write (trace_of pass) = [EWrite name record (write_ok env)]
        /\ (write_ok env = true ->
             content name (sd (final_state pass)) = content name (sd s) +:+ record))
  /\ (ready env = false \/ open_ok env = false ->
        List.filter is_write (trace_of pass) = [] /\ sd (final_state pass) = sd s)
  /\ List.filter is_write (trace_of (Task2code q s)) = []
  /\ List.filter is_write (trace_of (Task3code s)) = []
  /\ (sd_ok benv = true -> is_Some (sd s !! cap (bufs s)) ->
        List.filter is_write (trace_of boot) = [] /\ sd (final_state boot) = sd s)
  /\ (sd_ok benv = true -> sd s !! cap (bufs s) = None -> file_ok benv = true ->
        List.filter is_write (trace_of boot)
          = [EWrite (cap (bufs s)) "Date,X,Y,Z," (header_ok benv);
             EWrite (cap (bufs s)) CRLF (header_ok benv)]
        /\ (header_ok benv = true ->
             content (cap (bufs s)) (sd (final_state boot)) = "Date,X,Y,Z," +:+ CRLF)).
Proof.
  intros record pass name boot.
  split; [reflexivity|]. split; [reflexivity|]. split; [|split; [|split; [|split; [|split]]]].
  - intros Hr Ho. subst name pass.
    pose proof (Task1code_ready env s Hr) as Hrun. cbv zeta in Hrun.
    rewrite Ho, gpsDate_sampled in Hrun. fold record in Hrun. rewrite Hrun.
    cbn [final_state trace_of]. rewrite bufs_upd_sd. split; [reflexivity|].
    intros Hw. rewrite Hw, sd_upd_sd, sd_sampled, content_appended, content_opened.
    reflexivity.
  - intros Hcase. subst pass. destruct (ready env) eqn:Hr.
    + destruct Hcase as [Hcase|Ho]; [discriminate|].
      pose proof (Task1code_ready env s Hr) as Hrun. cbv zeta in Hrun.
      rewrite Ho in Hrun. rewrite Hrun. split; reflexivity.
    + rewrite (Task1code_not_ready env s Hr). split; reflexivity.
  - pose proof (Task2code_run q s) as Hrun. cbv zeta in Hrun. rewrite Hrun.
    destruct (bool_decide (triple (cal (refreshed q s)) ∈ restart_at)),
      (bool_decide (triple (cal (refreshed q s)) = suspend_at)),
      (bool_decide (triple (cal (refreshed q s)) = resume_at)); reflexivity.
  - rewrite Task3code_run. reflexivity.
  - intros Hok Hsome. subst boot. rewrite (init_sd_present benv s Hok Hsome).
    split; reflexivity.
  - intros Hok Hnone Hfile. subst boot.
    pose proof (init_sd_absent benv s Hok Hnone) as Hrun. cbv zeta in Hrun.
    rewrite Hfile in Hrun. rewrite Hrun. split; [reflexivity|].
    intros Hhead. rewrite Hhead. cbn [final_state]. rewrite sd_upd_sd.
    change (sd (upd_bufs (set_header header_text) s)) with (sd s).
    rewrite !content_appended. unfold content. rewrite lookup_insert_eq. reflexivity.
Qed.

(** X11. Line 192 names the log file "/test", year, month, day, ".csv"
    with no separator and no leading zero, so the name does not tell the day:
    in every year, 11 January and 1 November give the same name, and so do
    12 January and 2 November. *)
Theorem log_name_is_shared_by_two_days s c1 c2 :
  cap (bufs (final_state (name_log_file s))) = log_name (cal s)
  /\ (yeart c1 = yeart c2 ->
      (montht c1 = 1 -> dayt c1 = 11 -> montht c2 = 11 -> dayt c2 = 1 ->
         log_name c1 = log_name c2)
      /\ (montht c1 = 1 -> dayt c1 = 12 -> montht c2 = 11 -> dayt c2 = 2 ->
         log_name c1 = log_name c2)).
Proof.
  split.
  - apply cap_named.
  - intros Hy. unfold log_name. rewrite Hy.
    split; intros -> -> -> ->; reflexivity.
Qed.

End Log.

Section Buffers.

Context `{Numbers}.

(** *** The 20-byte globals: the texts that fit, and the record, which does not *)

(** X12. With a date and a time of day as the clock gives them, up to the
    year 9999, three of the four 20-byte globals hold what the firmware
    formats into them: the date of line 111 has 19 characters at most, the
    file name of line 192 has 17 at most, the header of line 223 has 11.
    What the three arrays hold when the block that writes them is through
    fits them as well. *)
Theorem Date_cap_and_header_fit env benv s :
  valid_calendar (cal s) ->
  (ready env = true -> fits (Date (bufs (final_state (Task1code env s)))) = true)
  /\ fits (cap (bufs (final_state (name_log_file s)))) = true
  /\ (sd_ok benv = true -> sd s !! cap (bufs s) = None -> file_ok benv = true ->
      fits (header (bufs (final_state (init_sd benv s)))) = true)
  /\ fits (date_text (cal s)) = true
  /\ fits (log_name (cal s)) = true
  /\ fits header_text = true.
Proof.
  intros Hvalid.
  assert (Hdate : fits (date_text (cal s)) = true).
  { unfold fits, buffer_size. apply Nat.ltb_lt. pose proof (date_text_length _ Hvalid). lia. }
  assert (Hname : fits (log_name (cal s)) = true).
  { unfold fits, buffer_size. apply Nat.ltb_lt. pose proof (log_name_length _ Hvalid). lia. }
  split; [|split; [|split; [|split; [exact Hdate|split; [exact Hname|reflexivity]]]]].
  - intros Hr. rewrite (bufs_after_sample env s Hr).
    apply Date_sampled_fits. exact Hdate.
  - rewrite cap_named. exact Hname.
  - intros Hok Hnone Hfile.
    pose proof (init_sd_absent benv s Hok Hnone) as Hrun. cbv zeta in Hrun.
    rewrite Hfile in Hrun. rewrite Hrun. cbn [final_state].
    rewrite bufs_upd_sd, bufs_upd_bufs, (header_set_header header_text _ eq_refl).
    reflexivity.
Qed.



End Buffers.

Section Boot.

Context `{Numbers}.

(** *** How [setup] ends *)






End Boot.

Section Telemetry.

Context `{Numbers}.

(** *** From the sensor to the air *)

Lemma sent_after_Task1code env s : sent (final_state (Task1code env s)) = sent s.
Proof.
  destruct (ready env) eqn:Hr.
  - pose proof (Task1code_ready env s Hr) as Hrun. cbv zeta in Hrun. rewrite Hrun.
    destruct (open_ok env); destruct s; reflexivity.
  - rewrite (Task1code_not_ready env s Hr). reflexivity.
Qed.

(** X14. The next pass of [Task3code] after a pass of [Task1code] sends
    one packet.  When the pass of [Task1code] found data ready, the packet
    carries that reading, and it does so also when the stream then failed
    to open or the write failed: [data] is written before the log.  When it
    found no data, the packet repeats what [data] held. *)
Theorem packet_follows_the_sample env s :
  let s1 := final_state (Task1code env s) in
  let s2 := final_state (Task3code s1) in
  (ready env = true ->
     sent s2 = sent s ++ [mk_message 11 (accel_to_float (rx env)) (accel_to_float (ry env))
                                      (accel_to_float (rz env))])
  /\ (ready env = false -> sent s2 = sent s ++ [packet s]).
Proof.
  intros s1 s2. subst s2. rewrite Task3code_run. cbn [final_state].
  rewrite sent_sending. subst s1.
  rewrite sent_after_Task1code. split; intros Hr.
  - unfold packet. rewrite (data_after_sample env s Hr). destruct s; reflexivity.
  - rewrite (Task1code_not_ready env s Hr). reflexivity.
Qed.

(** X15. While [data] is not written, [Task3code] goes on sending the same
    values: [n] passes send [n] packets, each with [id] 11 and the three
    values that [data] holds, and none of the passes stops. *)
Theorem broadcast_repeats_the_buffer n s :
  sent (final_state (Task3code_loop n s)) = sent s ++ replicate n (packet s)
  /\ data (final_state (Task3code_loop n s)) = data s
  /\ stopped_by (Task3code_loop n s) = None.
Proof.
  revert s. induction n as [|n IH]; intros s.
  - cbn. rewrite app_nil_r. auto.
  - cbn [Task3code_loop]. erewrite bind_done by apply Task3code_run.
    rewrite final_state_prepend.
    destruct (IH (sending (packet s) s)) as (Hsent & Hdata & Hgo).
    cbn [final_state] in *.
    assert (Hp : packet (sending (packet s) s) = packet s) by (destruct s; reflexivity).
    rewrite Hsent, Hdata, Hp, sent_sending. cbn [replicate].
    rewrite <- app_assoc. split; [reflexivity|]. split; [destruct s; reflexivity|].
    destruct (Task3code_loop n (sending (packet s) s)); [reflexivity|discriminate].
Qed.

(** X16. The date of a record is the one that [Task2code] cached, not one
    taken at the sample: after a pass of [Task2code] whose clock query was
    answered by [t], a pass of [Task1code] that finds data ready formats its
    record with the calendar fields of [t]; after a pass whose query failed,
    with the fields it found. *)
Theorem record_carries_the_cached_time q env s :
  ready env = true ->
  let s1 := final_state (Task2code q s) in
  let s2 := final_state (Task1code env s1) in
  gpsDate (bufs s2)
  = log_line (match q with Some t => calendar_of t | None => cal s end)
             (accel_to_int (rx env)) (accel_to_int (ry env)) (accel_to_int (rz env)).
Proof.
  intros Hr s1 s2. subst s2. rewrite (bufs_after_sample env s1 Hr), gpsDate_sampled.
  f_equal. subst s1. rewrite Task2code_final. cbv zeta.
  assert (Hc : cal (refreshed q s) = match q with Some t => calendar_of t | None => cal s end)
    by (destruct q, s; reflexivity).
  destruct (bool_decide (triple (cal (refreshed q s)) = suspend_at)),
    (bool_decide (triple (cal (refreshed q s)) = resume_at));
    rewrite ?cal_resumed, ?cal_suspended; exact Hc.
Qed.

End Telemetry.


Section ValidTime.

Context `{Numbers}.

(** *** The year zero *)

Lemma retry_time_ends fuel clk k s :
  match retry_time fuel clk k s with
  | Done _ s' _ => yeart (cal s') <> 0 /\ bufs s' = bufs s /\ tasks s' = tasks s
  | Stopped why s' _ => why = Spin /\ bufs s' = bufs s /\ tasks s' = tasks s
  end.
Proof.
  revert k s. induction fuel as [|fuel IH]; intros k s; [cbn; auto|].
  rewrite retry_step.
  assert (Hkeep : bufs (refreshed (clk k) s) = bufs s /\ tasks (refreshed (clk k) s) = tasks s)
    by (destruct (clk k), s; auto).
  destruct Hkeep as [Hb Ht].
  destruct (Z.eqb_spec (yeart (cal (refreshed (clk k) s))) 0) as [Hz|Hnz].
  - specialize (IH (S k) (refreshed (clk k) s)).
    destruct (retry_time fuel clk (S k) (refreshed (clk k) s)); cbn [prepend];
      destruct IH as (H1 & H2 & H3); rewrite H2, H3; auto.
  - cbn [prepend]. auto.
Qed.

(** X17. Whatever the clock answers, [setup] does nothing on a year zero:
    either it is still in the retry loop, with no file named and no task
    created, or the year in the calendar fields is not zero and the log file
    is named after the date in these fields. *)
Theorem setup_goes_on_with_a_year fuel env s :
  (exists s' tr, setup fuel env s = Stopped Spin s' tr /\ bufs s' = bufs s /\ tasks s' = tasks s)
  \/ (let s' := final_state (setup fuel env s) in
      yeart (cal s') <> 0 /\ cap (bufs s') = log_name (cal s')).
Proof.
  unfold setup. erewrite bind_done by apply connect_wifi_run.
  pose proof (retry_time_ends fuel (clock env) 0%nat s) as Hloop.
  destruct (retry_time fuel (clock env) 0%nat s) as [[] s1 tr1|why s1 tr1] eqn:Hretry.
  - right. destruct Hloop as [Hy _].
    erewrite bind_done by exact Hretry.
    rewrite !final_state_prepend.
    assert (Hrest : within (same (fun u => (cal u, cap (bufs u))))
              (init_esp_now env;; init_adxl313 env;; init_sd env;; test_send;; launch_tasks)).
    { unfold init_esp_now, init_adxl313, init_sd, test_send, launch_tasks, call, WiFi_mode,
        Serial_println, adxl_standby, adxl_measureModeOn, sd_exists, file_open_excl, error,
        file_print, file_println, file_close, ofstream_put, ofstream_close, esp_now_send,
        xTaskCreatePinnedToCore.
      match goal with
      | |- within (same ?view) _ =>
          stays fail (same_refl view) (same_trans view)
            ltac:(intros u; unfold same;
                  first [destruct u; reflexivity | f_equal; exact (cap_after_header u)])
      end. }
    unfold setup_run.
    erewrite bind_done by apply name_log_file_run. rewrite final_state_prepend.
    specialize (Hrest (set_wifi WIFI_OFF (upd_bufs (set_cap (log_name (cal s1))) s1))).
    unfold same in Hrest. injection Hrest as Hcal Hcap.
    cbv zeta. rewrite Hcal, Hcap. split; [exact Hy|].
    change (cap (set_cap (log_name (cal s1)) (bufs s1)) = log_name (cal s1)).
    apply cap_set_cap, no_nul_log_name.
  - left. destruct Hloop as (-> & Hb & Ht).
    erewrite bind_stopped by exact Hretry.
    eexists _, _. split; [reflexivity|]. auto.
Qed.

End ValidTime.

(** ** The model on the target's numbers, run on concrete inputs *)

Lemma all_from_spec n lo P v :
  Esp32.all_from n lo P = true -> lo <= v < lo + Z.of_nat n -> P v = true.
Proof.
  revert lo. induction n as [|n IH]; intros lo Hall Hv; [lia|].
  cbn [Esp32.all_from] in Hall. apply andb_true_iff in Hall as [Hlo Hrest].
  destruct (Z.eq_dec v lo) as [->|Hne]; [exact Hlo|].
  apply (IH (lo + 1)); [exact Hrest|lia].
Qed.

(** Every 16-bit integer survives the way to [float] and back. *)
Lemma int16_round_trip v :
  Esp32.is_int16 v = true -> Esp32.float32_to_Z (Esp32.float32_of_Z v) = v.
Proof.
  intros Hv. unfold Esp32.is_int16 in Hv. apply andb_true_iff in Hv as [Hlo Hhi].
  apply Z.leb_le in Hlo, Hhi. apply Z.eqb_eq.
  apply (all_from_spec (Z.to_nat 65536) (-32768)
           (fun v => Esp32.float32_to_Z (Esp32.float32_of_Z v) =? v)).
  - vm_compute. reflexivity.
  - rewrite Z2Nat.id by lia. lia.
Qed.

Lemma esp32_conversions_agree : @conversions_agree Esp32.numbers.
Proof. intros [v Hv]. apply int16_round_trip. exact Hv. Qed.

Section Witnesses.

#[local] Existing Instance Esp32.numbers.

(** The model at work: [%d], a boot on an empty card, a second boot on the
    same card, a sample, and passes of [Task2code] at three times of day. *)

Example fmt_d_samples :
  Fmt.fmt_d 2025 = "2025" /\ Fmt.fmt_d 0 = "0" /\ Fmt.fmt_d 9 = "9" /\ Fmt.fmt_d 10 = "10"
  /\ Fmt.fmt_d (-32768) = "-32768" /\ Fmt.fmt_d 2147483647 = "2147483647".
Proof. repeat split. Qed.

Example month_and_year_of_tm :
  calendar_of (Run.on_5_aug 21 12 9) = mk_calendar 21 12 9 5 8 2025.
Proof. reflexivity. Qed.

Example boot_names_the_file : cap (bufs Run.booted) = "/test202585.csv".
Proof. vm_compute. reflexivity. Qed.

Example boot_writes_the_header :
  content "/test202585.csv" (sd Run.booted) = "Date,X,Y,Z," +:+ CRLF.
Proof. vm_compute. reflexivity. Qed.

Example second_boot_keeps_the_file :
  content "/test202585.csv" (sd (final_state (setup 3 Run.boot_env (reboot Run.booted))))
  = "Date,X,Y,Z," +:+ CRLF.
Proof. vm_compute. reflexivity. Qed.

Example sample_record :
  let s' := final_state (Task1code (Run.reading true true true) Run.booted) in
  gpsDate (bufs s') = "2025/8/5 21:12:9,1,-2,255," +:+ LF
  /\ String.length (gpsDate (bufs s')) = 27%nat
  /\ content "/test202585.csv" (sd s')
     = "Date,X,Y,Z," +:+ CRLF +:+ "2025/8/5 21:12:9,1,-2,255," +:+ LF.
Proof. repeat split; vm_compute; reflexivity. Qed.

(** The arrays behind [gpsDate] before and after that sample: the seven
    characters of the record that [gpsDate] has no room for, and their zero,
    lie in [header]; [Date] and [cap] are out of their reach. *)
Example sample_overwrites_header :
  let s' := final_state (Task1code (Run.reading true true true) Run.booted) in
  header (bufs Run.booted) = "Date,X,Y,Z,"
  /\ header (bufs s') = "2,255," +:+ LF
  /\ Date (bufs s') = "2025/8/5 21:12:9"
  /\ cap (bufs s') = "/test202585.csv".
Proof. repeat split; vm_compute; reflexivity. Qed.

(** The bytes themselves, on eight bytes in place of twenty: a text of nine
    characters written to the first array runs over the second. *)
Example write_past_the_end :
  let m := write_at 8 "header" (replicate 16 NUL) in
  read_at 0 m = EmptyString /\ read_at 8 m = "header"
  /\ read_at 0 (write_at 0 "123456789" m) = "123456789"
  /\ read_at 8 (write_at 0 "123456789" m) = "9"
  /\ write_at 0 "123456789" m
     = list_ascii_of_string "123456789" ++ [NUL; "a"; "d"; "e"; "r"; NUL; NUL]%char.
Proof. repeat split. Qed.

Example open_failure_halts :
  let r := Task1code (Run.reading true false true) Run.booted in
  stopped_by r = Some Halt
  /\ List.filter is_halt (trace_of r) = [EErrorHalt "open failed"]
  /\ content "/test202585.csv" (sd (final_state r)) = "Date,X,Y,Z," +:+ CRLF.
Proof. split; [vm_compute; reflexivity|split; [reflexivity|vm_compute; reflexivity]]. Qed.

Example pass_at_suspend_time :
  trace_of (Task2code (Some (Run.on_5_aug 21 12 10)) Run.booted)
  = [EGetLocalTime (Some (Run.on_5_aug 21 12 10)); ETaskSuspend Task1; ETaskSuspend Task3;
     EStandby; ESerial ("Tasks suspended" +:+ CRLF); EDelayUntil 1].
Proof. reflexivity. Qed.

Example pass_at_restart_time :
  let r := Task2code (Some (Run.on_5_aug 6 18 10)) Run.booted in
  stopped_by r = Some Restart
  /\ trace_of r = [EGetLocalTime (Some (Run.on_5_aug 6 18 10)); ERestart].
Proof. split; reflexivity. Qed.

Example pass_one_second_late :
  trace_of (Task2code (Some (Run.on_5_aug 6 16 11)) Run.booted)
  = [EGetLocalTime (Some (Run.on_5_aug 6 16 11)); EDelayUntil 1].
Proof. reflexivity. Qed.

(** C2 at 21:12:09, one second before the suspend time. *)
Lemma Task2code_no_trigger_witness :
  let q := Some (Run.on_5_aug 21 12 9) in
  triple (cal (refreshed q Run.booted)) <> suspend_at
  /\ triple (cal (refreshed q Run.booted)) <> resume_at
  /\ (triple (cal (refreshed q Run.booted)) ∉ restart_at)
  /\ exists s',
       Task2code q Run.booted = Done tt s' [EGetLocalTime q; EDelayUntil 1]
       /\ tasks s' = tasks Run.booted
       /\ mode (myAdxl s') = mode (myAdxl Run.booted).
Proof.
  intros q.
  assert (H1 : triple (cal (refreshed q Run.booted)) <> suspend_at)
    by (refine (bool_decide_eq_false_1 _ _); vm_compute; reflexivity).
  assert (H2 : triple (cal (refreshed q Run.booted)) <> resume_at)
    by (refine (bool_decide_eq_false_1 _ _); vm_compute; reflexivity).
  assert (H3 : triple (cal (refreshed q Run.booted)) ∉ restart_at)
    by (refine (bool_decide_eq_false_1 _ _); vm_compute; reflexivity).
  repeat (split; [assumption|]).
  exact (Task2code_no_trigger q Run.booted H1 H2 H3).
Defined.

(** C3 on a boot that reaches line 236 at 21:12:10. *)
Lemma suspend_before_Task3_exists_witness :
  let q := Some (Run.on_5_aug 21 12 10) in
  let window := final_state (launch_window Run.before_launch) in
  let s1 := final_state (Task2code q window) in
  let s2 := final_state (xTaskCreatePinnedToCore Task3 s1) in
  tasks Run.before_launch = mk_scheduler NotCreated NotCreated NotCreated
  /\ triple (cal (refreshed q window)) = suspend_at
  /\ tasks window = mk_scheduler Running Running NotCreated
  /\ task1 (tasks s1) = Suspended /\ task3 (tasks s1) = NotCreated
  /\ task1 (tasks s2) = Suspended /\ task3 (tasks s2) = Running.
Proof.
  intros q window s1 s2.
  assert (Hnone : tasks Run.before_launch = mk_scheduler NotCreated NotCreated NotCreated)
    by (vm_compute; reflexivity).
  assert (Hat : triple (cal (refreshed q window)) = suspend_at) by (vm_compute; reflexivity).
  split; [exact Hnone|]. split; [exact Hat|].
  destruct (suspend_before_Task3_exists q Run.before_launch Hnone Hat)
    as (_ & Hwindow & _ & Hrest).
  split; [exact Hwindow|exact Hrest].
Defined.

(** X18 at 21:12:10, the suspend time. *)
Lemma triggers_are_coupled_witness :
  let q := Some (Run.on_5_aug 21 12 10) in
  let s' := final_state (Task2code q Run.booted) in
  task1 (tasks Run.booted) <> NotCreated
  /\ task3 (tasks Run.booted) <> NotCreated
  /\ triple (cal (refreshed q Run.booted)) = suspend_at
  /\ task1 (tasks s') = Suspended /\ task3 (tasks s') = Suspended
  /\ mode (myAdxl s') = Standby.
Proof.
  intros q s'.
  assert (H1 : task1 (tasks Run.booted) <> NotCreated) by (vm_compute; discriminate).
  assert (H3 : task3 (tasks Run.booted) <> NotCreated) by (vm_compute; discriminate).
  assert (Hat : triple (cal (refreshed q Run.booted)) = suspend_at) by (vm_compute; reflexivity).
  repeat (split; [assumption|]).
  exact (proj1 (triggers_are_coupled q Run.booted H1 H3) Hat).
Defined.

(** C4 on a clock that gives a valid year at its third answer, and on one
    that never answers. *)
Lemma boot_waits_for_valid_year_witness :
  let s0 := power_on Run.chip ∅ [] in
  let t := Run.on_5_aug 21 12 9 in
  (forall i, (i < 2)%nat -> year0 (Run.boot_clock i))
  /\ Run.boot_clock 2 = Some t
  /\ CInt.add (tm_year t) 1900 <> 0
  /\ (forall fuel, (fuel <= 2)%nat ->
        exists s', setup fuel Run.boot_env s0
                     = Stopped Spin s'
                         (connect_calls Run.boot_env ++ polls Run.boot_clock 0 fuel)
                   /\ bufs s' = bufs s0 /\ tasks s' = tasks s0
                   /\ sd s' = sd s0 /\ sent s' = sent s0)
  /\ (forall fuel, (2 < fuel)%nat ->
        setup fuel Run.boot_env s0
          = prepend (connect_calls Run.boot_env ++ polls Run.boot_clock 0 3)
                    (setup_run Run.boot_env (upd_cal (fun _ => calendar_of t) s0)))
  /\ (forall fuel,
        exists s', setup fuel (mk_boot_in 0 Run.never_clock true true true true true true) s0
                     = Stopped Spin s' (connect_calls (mk_boot_in 0 Run.never_clock true true true true true true)
                                          ++ polls Run.never_clock 0 fuel)
                   /\ bufs s' = bufs s0 /\ tasks s' = tasks s0
                   /\ sd s' = sd s0 /\ sent s' = sent s0).
Proof.
  intros s0 t.
  assert (Hzero : forall i, (i < 2)%nat -> year0 (Run.boot_clock i)).
  { intros [|[|i]] Hi; [exact I|reflexivity|lia]. }
  assert (Ht : Run.boot_clock 2 = Some t) by reflexivity.
  assert (Hvalid : CInt.add (tm_year t) 1900 <> 0) by (vm_compute; discriminate).
  split; [exact Hzero|]. split; [exact Ht|]. split; [exact Hvalid|].
  destruct (proj1 (boot_waits_for_valid_year Run.boot_env Run.chip ∅ []) 2%nat t Hzero Ht Hvalid)
    as [Hwait Hgo].
  split; [exact Hwait|]. split; [exact Hgo|].
  exact (proj2 (boot_waits_for_valid_year
                  (mk_boot_in 0 Run.never_clock true true true true true true) Run.chip ∅ [])
               (fun _ => I)).
Defined.

(** C5 on a pass whose stream opens and whose write fails. *)
Lemma write_failure_goes_unnoticed_witness :
  let env := Run.reading true true false in
  ready env = true /\ open_ok env = true /\ write_ok env = false
  /\ exists s' tr,
       Task1code env Run.booted = Done tt s' tr
       /\ In (EWrite (cap (bufs s')) (gpsDate (bufs s')) false) tr
       /\ List.filter is_halt tr = []
       /\ content (cap (bufs s')) (sd s') = content (cap (bufs s')) (sd Run.booted)
       /\ (fits (date_text (cal Run.booted)) = true -> cap (bufs s') = cap (bufs Run.booted)).
Proof.
  intros env. repeat (split; [reflexivity|]).
  exact (proj2 (write_failure_goes_unnoticed env Run.booted eq_refl) eq_refl eq_refl).
Defined.

(** C6 on a pass that finds no data ready. *)
Lemma not_ready_pass_is_idle_witness :
  let env := Run.reading false true true in
  ready env = false
  /\ exists s' tr,
       Task1code env Run.booted = Done tt s' tr
       /\ tr = [EDataReady false; EDelayUntil 1]
       /\ List.filter is_read tr = []
       /\ s' = Run.booted /\ data s' = data Run.booted /\ sd s' = sd Run.booted.
Proof.
  intros env. split; [reflexivity|].
  exact (not_ready_pass_is_idle env Run.booted eq_refl).
Defined.

(** C7 on the reading (1, -2, 255) at 21:12:09 on 5 August 2025, and on a
    card without the log file. *)
Lemma log_holds_header_and_records_witness :
  let env := Run.reading true true true in
  let pass := Task1code env Run.booted in
  let s0 := upd_bufs (set_cap "/test202585.csv") (power_on Run.chip ∅ []) in
  let boot := init_sd Run.boot_env s0 in
  ready env = true /\ open_ok env = true /\ write_ok env = true
  /\ List.filter is_write (trace_of pass)
     = [EWrite (cap (bufs (final_state pass))) (log_line (cal Run.booted) 1 (-2) 255) true]
  /\ content (cap (bufs (final_state pass))) (sd (final_state pass))
     = content (cap (bufs (final_state pass))) (sd Run.booted)
       +:+ log_line (cal Run.booted) 1 (-2) 255
  /\ sd_ok Run.boot_env = true /\ sd s0 !! cap (bufs s0) = None
  /\ file_ok Run.boot_env = true /\ header_ok Run.boot_env = true
  /\ List.filter is_write (trace_of boot)
     = [EWrite (cap (bufs s0)) "Date,X,Y,Z," true; EWrite (cap (bufs s0)) CRLF true]
  /\ content (cap (bufs s0)) (sd (final_state boot)) = "Date,X,Y,Z," +:+ CRLF.
Proof.
  intros env pass s0 boot.
  assert (Hnone : sd s0 !! cap (bufs s0) = None) by (vm_compute; reflexivity).
  do 3 (split; [reflexivity|]).
  destruct (log_holds_header_and_records env Run.boot_env None Run.booted)
    as (_ & _ & Hrecord & _).
  destruct (Hrecord eq_refl eq_refl) as [Hwrite Hlog].
  split; [exact Hwrite|]. split; [exact (Hlog eq_refl)|].
  split; [reflexivity|]. split; [exact Hnone|]. split; [reflexivity|]. split; [reflexivity|].
  destruct (log_holds_header_and_records env Run.boot_env None s0)
    as (_ & _ & _ & _ & _ & _ & _ & Hheader).
  destruct (Hheader eq_refl Hnone eq_refl) as [Hwrites Hfile].
  split; [exact Hwrites|exact (Hfile eq_refl)].
Defined.

(** C8 on the state after a boot and one pass of [Task3code]. *)
Lemma every_packet_has_id_11_witness :
  let s := final_state (Task3code Run.booted) in
  reachable s /\ Forall id_is_11 (sent s).
Proof.
  intros s.
  assert (Hboot : move (power_on Run.chip ∅ []) Run.booted)
    by exact (move_boot 3 Run.boot_env (power_on Run.chip ∅ [])).
  assert (Hrun : task3 (tasks Run.booted) = Running) by (vm_compute; reflexivity).
  assert (Hs : reachable s).
  { apply (reach_move Run.booted).
    - exact (reach_move _ _ (reach_power_on Run.chip ∅) Hboot).
    - exact (move_broadcast Run.booted Hrun). }
  split; [exact Hs|].
  exact (proj2 (proj2 every_packet_has_id_11) s Hs).
Defined.

(** C9 on the reading (1, -2, 255). *)
Lemma log_and_buffer_share_one_read_witness :
  let env := Run.reading true true true in
  let r := Task1code env Run.booted in
  let s' := final_state r in
  conversions_agree /\ ready env = true
  /\ List.filter is_read (trace_of r) = [EReadAccel (rx env) (ry env) (rz env)]
  /\ data s' = mk_vec3 (accel_to_float (rx env)) (accel_to_float (ry env))
                       (accel_to_float (rz env))
  /\ gpsDate (bufs s')
       = log_line (cal Run.booted) (float_to_int (data0 (data s')))
                  (float_to_int (data1 (data s'))) (float_to_int (data2 (data s')))
  /\ (open_ok env = true ->
        In (EWrite (cap (bufs s')) (gpsDate (bufs s')) (write_ok env)) (trace_of r))
  /\ (open_ok env = true -> write_ok env = true ->
        content (cap (bufs s')) (sd s')
          = content (cap (bufs s')) (sd Run.booted) +:+ gpsDate (bufs s'))
  /\ (fits (date_text (cal Run.booted)) = true -> cap (bufs s') = cap (bufs Run.booted)).
Proof.
  intros env r s'.
  split; [exact esp32_conversions_agree|]. split; [reflexivity|].
  exact (log_and_buffer_share_one_read env Run.booted esp32_conversions_agree eq_refl).
Defined.

(** X2 on a sample of the booted device and a file that is not its log. *)
Lemma Task1code_touches_only_its_log_witness :
  let s' := final_state (Task1code (Run.reading true true true) Run.booted) in
  fits (date_text (cal Run.booted)) = true
  /\ "/other.csv" <> cap (bufs Run.booted)
  /\ cal s' = cal Run.booted /\ tasks s' = tasks Run.booted
  /\ cap (bufs s') = cap (bufs Run.booted)
  /\ sd s' !! "/other.csv" = sd Run.booted !! "/other.csv".
Proof.
  intros s'.
  assert (Hfit : fits (date_text (cal Run.booted)) = true) by (vm_compute; reflexivity).
  assert (Hname : cap (bufs Run.booted) = "/test202585.csv") by (vm_compute; reflexivity).
  assert (Hne : "/other.csv" <> cap (bufs Run.booted)) by (rewrite Hname; discriminate).
  split; [exact Hfit|]. split; [exact Hne|].
  destruct (Task1code_touches_only_its_log (Run.reading true true true) Run.booted Hfit)
    as (Hcal & Htasks & _ & _ & _ & _ & Hcap & Hfiles).
  split; [exact Hcal|]. split; [exact Htasks|].
  split; [exact Hcap|exact (Hfiles "/other.csv" Hne)].
Defined.

(** X4 on a sample, a pass of [Task2code] at midnight of the next day and a
    broadcast. *)
Lemma log_name_fixed_between_boots_witness :
  let s1 := final_state (Task1code (Run.reading true true true) Run.booted) in
  let s2 := final_state (Task2code (Some (mk_tm 0 0 0 6 7 125)) s1) in
  let s3 := final_state (Task3code s2) in
  rtc task_pass Run.booted s3 /\ cap (bufs s3) = cap (bufs Run.booted).
Proof.
  intros s1 s2 s3.
  assert (Hpath : rtc task_pass Run.booted s3).
  { assert (Hfit : fits (date_text (cal Run.booted)) = true) by (vm_compute; reflexivity).
    apply (rtc_l _ _ s1); [exact (pass_sample _ Run.booted Hfit)|].
    apply (rtc_l _ _ s2); [exact (pass_control _ s1)|].
    apply (rtc_l _ _ s3); [exact (pass_broadcast s2)|].
    apply rtc_refl. }
  split; [exact Hpath|].
  exact (log_name_fixed_between_boots Run.booted s3 Hpath).
Defined.

(** X7 on the booted device, at 21:12:10 and then at 06:12:10. *)
Lemma suspend_then_resume_restores_witness :
  let t1 := Run.on_5_aug 21 12 10 in
  let t2 := Run.on_5_aug 6 12 10 in
  let s1 := final_state (Task2code (Some t1) Run.booted) in
  let s2 := final_state (Task2code (Some t2) s1) in
  tasks Run.booted = all_running /\ mode (myAdxl Run.booted) = Measuring
  /\ triple (calendar_of t1) = suspend_at /\ triple (calendar_of t2) = resume_at
  /\ tasks s1 = mk_scheduler Suspended Running Suspended /\ mode (myAdxl s1) = Standby
  /\ tasks s2 = tasks Run.booted /\ mode (myAdxl s2) = mode (myAdxl Run.booted).
Proof.
  intros t1 t2 s1 s2.
  assert (Ht : tasks Run.booted = all_running) by (vm_compute; reflexivity).
  assert (Hm : mode (myAdxl Run.booted) = Measuring) by (vm_compute; reflexivity).
  assert (H1 : triple (calendar_of t1) = suspend_at) by reflexivity.
  assert (H2 : triple (calendar_of t2) = resume_at) by reflexivity.
  repeat (split; [assumption|]).
  exact (suspend_then_resume_restores t1 t2 Run.booted Ht Hm H1 H2).
Defined.

(** X8 on a sampling pass of the booted device. *)
Lemma card_is_append_only_witness :
  let s' := final_state (Task1code (Run.reading true true true) Run.booted) in
  move Run.booted s' /\ grows Run.booted s'.
Proof.
  intros s'.
  assert (Hrun : task1 (tasks Run.booted) = Running) by (vm_compute; reflexivity).
  assert (Hmove : move Run.booted s') by exact (move_sample _ Run.booted Hrun).
  split; [exact Hmove|].
  exact (card_is_append_only Run.booted s' Hmove).
Defined.

(** X9 on three passes: a sample, a pass without data, a sample whose write
    fails. *)
Lemma log_gains_one_record_per_sample_witness :
  let envs := [Run.reading true true true; Run.reading false true true;
               Run.reading true true false] in
  fits (date_text (cal Run.booted)) = true
  /\ Forall (fun env => ready env = true -> open_ok env = true) envs
  /\ exists s' tr,
       Task1code_loop envs Run.booted = Done tt s' tr
       /\ cal s' = cal Run.booted /\ cap (bufs s') = cap (bufs Run.booted)
       /\ content (cap (bufs Run.booted)) (sd s')
          = content (cap (bufs Run.booted)) (sd Run.booted) +:+ records (cal Run.booted) envs.
Proof.
  intros envs.
  assert (Hfit : fits (date_text (cal Run.booted)) = true) by (vm_compute; reflexivity).
  assert (Hall : Forall (fun env => ready env = true -> open_ok env = true) envs)
    by (repeat constructor).
  split; [exact Hfit|]. split; [exact Hall|].
  exact (log_gains_one_record_per_sample envs Run.booted Hfit Hall).
Defined.

(** X10 on a card without the log file, and on the booted device, whose
    card has it. *)
Lemma header_is_written_once_witness :
  let s0 := upd_bufs (set_cap "/test202585.csv") (power_on Run.chip ∅ []) in
  sd_ok Run.boot_env = true /\ sd s0 !! cap (bufs s0) = None
  /\ file_ok Run.boot_env = true /\ header_ok Run.boot_env = true
  /\ exists s' tr,
       init_sd Run.boot_env s0 = Done tt s' tr
       /\ sd s' !! cap (bufs s0) = Some (header_text +:+ CRLF)
       /\ (forall name, name <> cap (bufs s0) -> sd s' !! name = sd s0 !! name)
       /\ cap (bufs s') = cap (bufs s0)
       /\ forall env', sd_ok env' = true -> sd (final_state (init_sd env' s')) = sd s'.
Proof.
  intros s0.
  assert (Hnone : sd s0 !! cap (bufs s0) = None) by (vm_compute; reflexivity).
  split; [reflexivity|]. split; [exact Hnone|]. split; [reflexivity|]. split; [reflexivity|].
  exact (proj1 (proj2 (header_is_written_once Run.boot_env s0 eq_refl)) Hnone eq_refl eq_refl).
Defined.

(** X11 on 11 January and 1 November 2025. *)
Lemma log_name_is_shared_by_two_days_witness :
  let c1 := mk_calendar 0 0 0 11 1 2025 in
  let c2 := mk_calendar 0 0 0 1 11 2025 in
  yeart c1 = yeart c2 /\ montht c1 = 1 /\ dayt c1 = 11 /\ montht c2 = 11 /\ dayt c2 = 1
  /\ log_name c1 = log_name c2 /\ log_name c1 = "/test2025111.csv".
Proof.
  intros c1 c2. do 5 (split; [reflexivity|]).
  split; [|reflexivity].
  exact (proj1 (proj2 (log_name_is_shared_by_two_days Run.booted c1 c2) eq_refl)
           eq_refl eq_refl eq_refl eq_refl).
Defined.

(** X12 on the booted device, at 21:12:09 on 5 August 2025. *)
Lemma Date_cap_and_header_fit_witness :
  let env := Run.reading true true true in
  valid_calendar (cal Run.booted) /\ ready env = true
  /\ fits (Date (bufs (final_state (Task1code env Run.booted)))) = true
  /\ fits (cap (bufs (final_state (name_log_file Run.booted)))) = true
  /\ fits (date_text (cal Run.booted)) = true.
Proof.
  intros env.
  assert (Hcal : cal Run.booted = mk_calendar 21 12 9 5 8 2025) by (vm_compute; reflexivity).
  assert (Hvalid : valid_calendar (cal Run.booted)).
  { rewrite Hcal. unfold valid_calendar. cbn. lia. }
  split; [exact Hvalid|]. split; [reflexivity|].
  destruct (Date_cap_and_header_fit env Run.boot_env Run.booted Hvalid)
    as (HDate & Hcap & _ & Htext & _).
  split; [exact (HDate eq_refl)|]. split; [exact Hcap|exact Htext].
Defined.

(** X14 on a pass with the reading (1, -2, 255) and on a pass without data. *)
Lemma packet_follows_the_sample_witness :
  let env := Run.reading true false true in
  let idle := Run.reading false true true in
  ready env = true /\ ready idle = false
  /\ sent (final_state (Task3code (final_state (Task1code env Run.booted))))
     = sent Run.booted ++ [mk_message 11 (accel_to_float (rx env)) (accel_to_float (ry env))
                                         (accel_to_float (rz env))]
  /\ sent (final_state (Task3code (final_state (Task1code idle Run.booted))))
     = sent Run.booted ++ [packet Run.booted].
Proof.
  intros env idle. split; [reflexivity|]. split; [reflexivity|]. split.
  - exact (proj1 (packet_follows_the_sample env Run.booted) eq_refl).
  - exact (proj2 (packet_follows_the_sample idle Run.booted) eq_refl).
Defined.

(** X16 on a query answered at midnight of 6 August, followed by a sample. *)
Lemma record_carries_the_cached_time_witness :
  let t := mk_tm 0 0 0 6 7 125 in
  let env := Run.reading true true true in
  ready env = true
  /\ gpsDate (bufs (final_state (Task1code env (final_state (Task2code (Some t) Run.booted)))))
     = log_line (calendar_of t) (accel_to_int (rx env)) (accel_to_int (ry env))
                (accel_to_int (rz env)).
Proof.
  intros t env. split; [reflexivity|].
  exact (record_carries_the_cached_time (Some t) env Run.booted eq_refl).
Defined.



End Witnesses.
